(** * it_chatbot.py: customer-support chatbot with two lookup tools

    A shallow embedding of [it_chatbot.py]: the two lookup tables and their
    lookup functions, the tool dispatch, the per-turn dialogue (first
    completion, tool calls, follow-up completions, error handler), the
    conversation log, and the two transcripts kept in the session state.

    What the script takes from outside is an explicit input of the model:
    - [lower] is Python's [str.lower];
    - [service] answers the calls to [client.chat.completions.create];
    - [now] is the clock read by [log_conversation];
    - [write_error] tells which writes to the log file fail, and how. *)

From Stdlib Require Import NArith ZArith String Ascii Lia.
From stdpp Require Import base option list gmap pretty.

Set Warnings "-register-all".

(** ** Python strings *)

(** A [str] is a sequence of Unicode code points. *)
Abbreviation pystr := (list N).

(** An ASCII literal of the source. *)
Definition str (s : string) : pystr :=
  map N_of_ascii (list_ascii_of_string s).

(** U+2192, the arrow in the first FAQ answer and in the seeded reply. *)
Definition rightwards_arrow : N := 8594%N.
(** U+274C, the cross mark in front of the error box text. *)
Definition cross_mark : N := 10060%N.
(** The line feed that ends every write to the log. *)
Definition LF : N := 10%N.

(** [p] is a prefix of [s]. *)
Fixpoint startswith (p s : pystr) : bool :=
  match p, s with
  | [], _ => true
  | _ :: _, [] => false
  | a :: p', b :: s' => (a =? b)%N && startswith p' s'
  end.

(** [needle in hay] on two strings. *)
Fixpoint contains (needle hay : pystr) : bool :=
  startswith needle hay ||
  match hay with
  | [] => false
  | _ :: hay' => contains needle hay'
  end.

(** [str.lower] and [str.capitalize] on the ASCII range; other code points
    are left as they are.  [capitalize] is only ever applied to the three
    literals passed to [log_conversation]; [ascii_lower] is what [str.lower]
    does on ASCII text. *)
Definition lower_cp (c : N) : N :=
  if ((65 <=? c) && (c <=? 90))%N then (c + 32)%N else c.
Definition upper_cp (c : N) : N :=
  if ((97 <=? c) && (c <=? 122))%N then (c - 32)%N else c.
Definition ascii_lower (s : pystr) : pystr := map lower_cp s.
Definition capitalize (s : pystr) : pystr :=
  match s with
  | [] => []
  | c :: rest => upper_cp c :: map lower_cp rest
  end.
Definition is_ascii (s : pystr) : Prop := Forall (fun c => (c < 128)%N) s.

(** [x or default] on an optional string: [None] and the empty string are
    falsy. *)
Definition py_or (x : option pystr) (default : pystr) : pystr :=
  match x with
  | Some (c :: s) => c :: s
  | _ => default
  end.

(** ** 4. Mock data *)

Record faq_entry := { question : pystr; answer : pystr }.
Record order_record := { order_id : pystr; status : pystr; eta : pystr }.

Definition faq_data : list faq_entry :=
  [ {| question := str "How can I reset my password?";
       answer := str "Go to Account Settings " ++ [rightwards_arrow]
                 ++ str " Security " ++ [rightwards_arrow]
                 ++ str " Reset Password." |};
    {| question := str "What is the refund policy?";
       answer := str "Refunds are available within 30 days of purchase." |};
    {| question := str "Do you offer international shipping?";
       answer := str "Yes, we ship worldwide." |} ].

Definition order_data : list order_record :=
  [ {| order_id := str "ORD123"; status := str "Shipped";
       eta := str "2025-10-28" |};
    {| order_id := str "ORD124"; status := str "Delivered";
       eta := str "2025-10-22" |};
    {| order_id := str "ORD125"; status := str "Processing";
       eta := str "2025-10-27" |} ].

Definition faq_not_found : pystr :=
  str "Sorry, I couldn't find that information.".
Definition order_status_text (order_id : pystr) (order : order_record) : pystr :=
  str "Order " ++ order_id ++ str " is " ++ status order
  ++ str " and will arrive by " ++ eta order ++ str ".".
Definition order_not_found (order_id : pystr) : pystr :=
  str "Order ID " ++ order_id ++ str " not found.".

(** ** Exceptions and JSON values *)

Inductive exn :=
| RemoteError (text : pystr)          (* raised by [completions.create] *)
| JSONDecodeError (text : pystr)      (* raised by [json.loads] *)
| IndexError                          (* [choices[0]] on an empty list *)
| AttributeError (type attr : pystr)  (* [x.attr] where [x] has none *)
| UnicodeEncodeError (text : pystr)   (* raised by the write to the log *)
| OSError (text : pystr).             (* raised by [open] or the write *)

(** [str(e)]. *)
Definition exn_text (e : exn) : pystr :=
  match e with
  | RemoteError text => text
  | JSONDecodeError text => text
  | IndexError => str "list index out of range"
  | AttributeError type attr =>
      str "'" ++ type ++ str "' object has no attribute '" ++ attr ++ str "'"
  | UnicodeEncodeError text => text
  | OSError text => text
  end.

Inductive outcome (A : Type) :=
| Return (a : A)
| Raise (e : exn).
Arguments Return {A} a.
Arguments Raise {A} e.

(** What [json.loads] can return. *)
Inductive pyval :=
| PyNone
| PyBool (b : bool)
| PyInt (z : Z)
| PyFloat (literal : pystr)
| PyStr (s : pystr)
| PyList (l : list pyval)
| PyDict (d : gmap pystr pyval).

Definition type_name (v : pyval) : pystr :=
  match v with
  | PyNone => str "NoneType"
  | PyBool _ => str "bool"
  | PyInt _ => str "int"
  | PyFloat _ => str "float"
  | PyStr _ => str "str"
  | PyList _ => str "list"
  | PyDict _ => str "dict"
  end.

(** [func_args.get(key, "")]: only a dict has [get]. *)
Definition py_get (func_args : pyval) (key : pystr) : outcome pyval :=
  match func_args with
  | PyDict d => Return (default (PyStr []) (d !! key))
  | v => Raise (AttributeError (type_name v) (str "get"))
  end.

(** ** 6. Tool schema *)

Record tool_descriptor := {
  tool_name : pystr;
  tool_description : pystr;
  tool_properties : list (pystr * pystr);
  tool_required : list pystr
}.

Definition tools : list tool_descriptor :=
  [ {| tool_name := str "lookup_faq";
       tool_description := str "Retrieve an FAQ answer.";
       tool_properties := [(str "query", str "string")];
       tool_required := [str "query"] |};
    {| tool_name := str "get_order_status";
       tool_description := str "Retrieve order status by ID.";
       tool_properties := [(str "order_id", str "string")];
       tool_required := [str "order_id"] |} ].

(** ** The completion service *)

(** A tool-call request [tc]: [tc.id], [tc.function.name] and, for
    [tc.function.arguments], the outcome of [json.loads] on it (the argument
    text is read nowhere else). *)
Record tool_call := {
  tc_id : pystr;
  function_name : pystr;
  function_arguments : outcome pyval
}.

(** [completion.choices[i].message] *)
Record chat_message := {
  content : option pystr;
  tool_calls : option (list tool_call)
}.
Record completion := { choices : list chat_message }.

(** An entry of a message list: a plain dict, the tool-result dict of the
    follow-up request, or the message object of the first response. *)
Inductive message :=
| Dict (role content : pystr)
| ToolDict (tool_call_id content : pystr)
| ModelMessage (m : chat_message).

Definition role_of (m : message) : pystr :=
  match m with
  | Dict role _ => role
  | ToolDict _ _ => str "tool"
  | ModelMessage _ => str "assistant"
  end.

Record request := {
  req_model : pystr;
  req_messages : list message;
  req_tools : option (list tool_descriptor)
}.

(** ** 7. Conversation logging *)

Record datetime := {
  year : N; month : N; day : N; hour : N; minute : N; second : N
}.

Definition digit (n : N) : N := (48 + n mod 10)%N.
Definition dec2 (n : N) : pystr := [digit (n / 10); digit n].
Definition dec4 (n : N) : pystr :=
  [digit (n / 1000); digit (n / 100); digit (n / 10); digit n].

(** [strftime("%Y-%m-%d %H:%M:%S")] on what [datetime.now()] returns: a
    year of four digits, and two digits for each of the other fields. *)
Definition strftime (t : datetime) : pystr :=
  dec4 (year t) ++ str "-" ++ dec2 (month t) ++ str "-" ++ dec2 (day t)
  ++ str " " ++ dec2 (hour t) ++ str ":" ++ dec2 (minute t) ++ str ":"
  ++ dec2 (second t).

(** The text of one [f.write] of [log_conversation]. *)
Definition log_line (ts : datetime) (role content : pystr) : pystr :=
  str "[" ++ strftime ts ++ str "] " ++ capitalize role ++ str ": "
  ++ content ++ [LF].

(** Lines of a text: the number of line feeds in it. *)
Definition count_lines (text : pystr) : nat :=
  length (filter (fun c => c = LF) text).


(** ** 9. Session state *)

(** [st.session_state] with what the script leaves outside it: the texts
    written to the log file, the error boxes shown by [st.error], the
    records of [logger.exception], the requests the completion service
    received, and the number of calls of [log_conversation] so far. *)
Record session := {
  messages : list message;
  display_messages : list message;
  log_file : list pystr;
  ui_errors : list pystr;
  debug_log : list exn;
  requests : list request;
  log_calls : nat
}.

Definition initial_messages : list message :=
  [ Dict (str "system")
         (str "You are a polite, accurate customer support assistant.");
    Dict (str "user") (str "How can I reset my password?");
    Dict (str "assistant")
         (str "You can reset it under Account Settings " ++ [rightwards_arrow]
          ++ str " Security.") ].

Definition initial_session : session :=
  {| messages := initial_messages; display_messages := [];
     log_file := []; ui_errors := []; debug_log := []; requests := [];
     log_calls := 0 |}.

(** The text written to the log file so far. *)
Definition log_text (s : session) : pystr := concat (log_file s).

(** ** Statements of the script: state and exceptions *)

Definition M (A : Type) : Type := session -> outcome A * session.

Definition ret {A} (a : A) : M A := fun s => (Return a, s).
Definition raise {A} (e : exn) : M A := fun s => (Raise e, s).
Definition bind {A B} (m : M A) (k : A -> M B) : M B :=
  fun s =>
    match m s with
    | (Return a, s') => k a s'
    | (Raise e, s') => (Raise e, s')
    end.
Definition lift {A} (o : outcome A) : M A := fun s => (o, s).
Definition gets {A} (f : session -> A) : M A := fun s => (Return (f s), s).
Definition modify (f : session -> session) : M unit :=
  fun s => (Return tt, f s).

(** [try: body except Exception as e: handler(e)] *)
Definition try_except (body : M unit) (handler : exn -> M unit) : M unit :=
  fun s =>
    match body s with
    | (Return tt, s') => (Return tt, s')
    | (Raise e, s') => handler e s'
    end.

Declare Scope py_scope.
Delimit Scope py_scope with py.
Notation "x <- m ;; k" := (bind m (fun x => k))
  (at level 100, m at next level, right associativity) : py_scope.
Notation "m ;; k" := (bind m (fun _ => k))
  (at level 100, right associativity) : py_scope.
Local Open Scope py_scope.

(** [for x in l: body(x)] *)
Fixpoint for_each {A} (body : A -> M unit) (l : list A) : M unit :=
  match l with
  | [] => ret tt
  | x :: rest => body x ;; for_each body rest
  end.
Arguments for_each {A} body l : simpl never.

Definition append_message (m : message) : M unit :=
  modify (fun s =>
    {| messages := messages s ++ [m];
       display_messages := display_messages s; log_file := log_file s;
       ui_errors := ui_errors s; debug_log := debug_log s;
       requests := requests s; log_calls := log_calls s |}).
Definition append_display (m : message) : M unit :=
  modify (fun s =>
    {| messages := messages s;
       display_messages := display_messages s ++ [m]; log_file := log_file s;
       ui_errors := ui_errors s; debug_log := debug_log s;
       requests := requests s; log_calls := log_calls s |}).
(** The session after a call of [log_conversation] that wrote [text], and
    after a call whose write raised: the file is as it was. *)
Definition write_log (text : pystr) (s : session) : session :=
  {| messages := messages s; display_messages := display_messages s;
     log_file := log_file s ++ [text];
     ui_errors := ui_errors s; debug_log := debug_log s;
     requests := requests s; log_calls := S (log_calls s) |}.
Definition fail_log (s : session) : session :=
  {| messages := messages s; display_messages := display_messages s;
     log_file := log_file s;
     ui_errors := ui_errors s; debug_log := debug_log s;
     requests := requests s; log_calls := S (log_calls s) |}.
(** [st.error(text)] *)
Definition st_error (text : pystr) : M unit :=
  modify (fun s =>
    {| messages := messages s; display_messages := display_messages s;
       log_file := log_file s; ui_errors := ui_errors s ++ [text];
       debug_log := debug_log s; requests := requests s;
       log_calls := log_calls s |}).
(** [logger.exception("API Error")] while [e] is being handled *)
Definition logger_exception (e : exn) : M unit :=
  modify (fun s =>
    {| messages := messages s; display_messages := display_messages s;
       log_file := log_file s; ui_errors := ui_errors s;
       debug_log := debug_log s ++ [e]; requests := requests s;
       log_calls := log_calls s |}).
Definition record_request (r : request) (s : session) : session :=
  {| messages := messages s; display_messages := display_messages s;
     log_file := log_file s; ui_errors := ui_errors s;
     debug_log := debug_log s; requests := requests s ++ [r];
     log_calls := log_calls s |}.

(** [completion.choices[0].message] *)
Definition first_message (c : completion) : M chat_message :=
  match choices c with
  | [] => raise IndexError
  | m :: _ => ret m
  end.

Definition api_error_text (e : exn) : pystr :=
  [cross_mark] ++ str " API Error: " ++ exn_text e.

Definition gpt5 : pystr := str "gpt-5".
Definition not_implemented : pystr := str "Tool not implemented.".
Definition no_response : pystr := str "No response.".

(** ** Concrete surroundings, used to run the script on examples *)

Definition sample_clock (n : nat) : datetime :=
  {| year := 2025; month := 10; day := 21; hour := 12; minute := 0;
     second := N.of_nat n mod 60 |}%N.

Definition text_reply (text : pystr) : outcome completion :=
  Return {| choices := [ {| content := Some text; tool_calls := None |} ] |}.
Definition tool_reply (tcs : list tool_call) : outcome completion :=
  Return {| choices := [ {| content := None; tool_calls := Some tcs |} ] |}.

(** A call to [lookup_faq] whose arguments are [{"query": q}], a call to
    [get_order_status] with [{"order_id": i}], a call to [lookup_faq] with
    [{}], and a call to an unknown tool whose argument text does not
    decode. *)
Definition faq_call (call_id q : pystr) : tool_call :=
  {| tc_id := call_id; function_name := str "lookup_faq";
     function_arguments := Return (PyDict {[ str "query" := PyStr q ]}) |}.
Definition order_call (call_id i : pystr) : tool_call :=
  {| tc_id := call_id; function_name := str "get_order_status";
     function_arguments := Return (PyDict {[ str "order_id" := PyStr i ]}) |}.
Definition bare_faq_call (call_id : pystr) : tool_call :=
  {| tc_id := call_id; function_name := str "lookup_faq";
     function_arguments := Return (PyDict ∅) |}.
Definition malformed_call (call_id : pystr) : tool_call :=
  {| tc_id := call_id; function_name := str "reset_router";
     function_arguments :=
       Raise (JSONDecodeError
                (str "Expecting value: line 1 column 1 (char 0)")) |}.

(** Two calls a first response may carry, and the scripts of four turns:
    both calls answered; the second follow-up request fails; a plain reply
    of two lines; a call that does not decode. *)
Definition call_faq : tool_call := faq_call (str "call_1") (str "refund").
Definition call_order : tool_call := order_call (str "call_2") (str "ORD123").
Definition two_calls : chat_message :=
  {| content := None; tool_calls := Some [call_faq; call_order] |}.
Definition script_both_answered : list (outcome completion) :=
  [ tool_reply [call_faq; call_order];
    text_reply (str "You have 30 days.");
    text_reply (str "It has shipped.") ].
Definition script_second_fails : list (outcome completion) :=
  [ tool_reply [call_faq; call_order];
    text_reply (str "You have 30 days.") ].
Definition script_two_lines : list (outcome completion) :=
  [ text_reply (str "Step 1" ++ [LF] ++ str "Step 2") ].
Definition script_malformed : list (outcome completion) :=
  [ tool_reply [malformed_call (str "call_1")] ].

(** A call to [lookup_faq] whose argument text is [[]], a list. *)
Definition list_call (call_id : pystr) : tool_call :=
  {| tc_id := call_id; function_name := str "lookup_faq";
     function_arguments := Return (PyList []) |}.

(** A turn answered with a lone surrogate, and a turn whose call fails. *)
Definition script_surrogate : list (outcome completion) :=
  [ text_reply [55357%N] ].
Definition script_down : list (outcome completion) := [].

(** A service that answers the [n]-th request with the [n]-th entry of a
    script, and fails once the script is used up. *)
Definition scripted (script : list (outcome completion)) (n : nat)
    (_ : request) : outcome completion :=
  default (Raise (RemoteError (str "Connection error."))) (script !! n).

(** The strict utf-8 codec of the log file: a text with a surrogate code
    point is refused, with the message of Python's [UnicodeEncodeError] for
    the first run of surrogates. *)
Definition is_surrogate (c : N) : bool :=
  ((55296 <=? c) && (c <=? 57343))%N.
Fixpoint surrogates (text : pystr) : nat :=
  match text with
  | c :: rest => if is_surrogate c then S (surrogates rest) else 0
  | [] => 0
  end.
Fixpoint first_surrogates (text : pystr) (position : nat)
    : option (N * nat * nat) :=
  match text with
  | [] => None
  | c :: rest =>
      if is_surrogate c then Some (c, position, position + surrogates rest)
      else first_surrogates rest (S position)
  end.
Definition hex_digit (n : N) : N :=
  (if n mod 16 <? 10 then 48 + n mod 16 else 87 + n mod 16)%N.
Definition hex4 (c : N) : pystr :=
  [hex_digit (c / 4096); hex_digit (c / 256); hex_digit (c / 16);
   hex_digit c].
Definition decimal (n : nat) : pystr := str (pretty n).
Definition strict_utf8 (_ : nat) (text : pystr) : option exn :=
  match first_surrogates text 0 with
  | None => None
  | Some (c, first, last) =>
      Some (UnicodeEncodeError
              (if decide (first = last)
               then str "'utf-8' codec can't encode character '\u" ++ hex4 c
                    ++ str "' in position " ++ decimal first
                    ++ str ": surrogates not allowed"
               else str "'utf-8' codec can't encode characters in position "
                    ++ decimal first ++ str "-" ++ decimal last
                    ++ str ": surrogates not allowed"))
  end.

(** The same codec on a host whose logs directory is removed before call
    number [k] of [log_conversation]. *)
Definition logs_removed (k n : nat) (text : pystr) : option exn :=
  if decide (k <= n)
  then Some (OSError
               (str "[Errno 2] No such file or directory: "
                ++ str "'logs/conversation_20251021_120000.txt'"))
  else strict_utf8 n text.

Section Chatbot.

(** Python's [str.lower]. *)
Variable lower : pystr -> pystr.
(** The answer of the completion service to the [n]-th request it gets. *)
Variable service : nat -> request -> outcome completion.
(** The clock at the [n]-th call of [log_conversation]. *)
Variable now : nat -> datetime.
(** The exception, if any, that the [n]-th call of [log_conversation] meets
    when it appends [text] to the log file: a [UnicodeEncodeError] of the
    utf-8 codec, or an [OSError] of [open] or of the write.  Nothing is
    written then. *)
Variable write_error : nat -> pystr -> option exn.

(** ** 5. Tool functions *)

Definition faq_matches (query : pystr) (faq : faq_entry) : bool :=
  contains (lower query) (lower (question faq))
  || contains (lower query) (lower (answer faq)).

Fixpoint lookup_faq_in (data : list faq_entry) (query : pystr) : pystr :=
  match data with
  | [] => faq_not_found
  | faq :: rest =>
      if faq_matches query faq then answer faq else lookup_faq_in rest query
  end.
Definition lookup_faq (query : pystr) : pystr := lookup_faq_in faq_data query.

Definition order_matches (id : pystr) (order : order_record) : bool :=
  bool_decide (lower (order_id order) = lower id).

Fixpoint get_order_status_in (data : list order_record) (id : pystr) : pystr :=
  match data with
  | [] => order_not_found id
  | order :: rest =>
      if order_matches id order then order_status_text id order
      else get_order_status_in rest id
  end.
Definition get_order_status (id : pystr) : pystr :=
  get_order_status_in order_data id.

(** The two functions on whatever [func_args.get] hands them.  Both tables
    are non-empty, so the first iteration evaluates [.lower()] on the
    argument, which only a [str] has. *)
Definition call_lookup_faq (query : pyval) : outcome pystr :=
  match query with
  | PyStr q => Return (lookup_faq q)
  | v => Raise (AttributeError (type_name v) (str "lower"))
  end.
Definition call_get_order_status (id : pyval) : outcome pystr :=
  match id with
  | PyStr i => Return (get_order_status i)
  | v => Raise (AttributeError (type_name v) (str "lower"))
  end.

(** ** 10. Chat interaction *)

(** Step 2, lines 150-157: decode the arguments, then dispatch on the name. *)
Definition execute_tool (tc : tool_call) : outcome pystr :=
  match function_arguments tc with
  | Raise e => Raise e
  | Return func_args =>
      if decide (function_name tc = str "lookup_faq") then
        match py_get func_args (str "query") with
        | Raise e => Raise e
        | Return query => call_lookup_faq query
        end
      else if decide (function_name tc = str "get_order_status") then
        match py_get func_args (str "order_id") with
        | Raise e => Raise e
        | Return id => call_get_order_status id
        end
      else Return not_implemented
  end.

(** Lines 103-106: the clock is read, the file is opened for appending
    with the utf-8 codec, and the line is written.  A line that the codec
    refuses, or a file that cannot be opened or written, raises, and the
    file is as it was. *)
Definition log_conversation (role content : pystr) : M unit :=
  fun s =>
    let text := log_line (now (log_calls s)) role content in
    match write_error (log_calls s) text with
    | None => (Return tt, write_log text s)
    | Some e => (Raise e, fail_log s)
    end.

(** [client.chat.completions.create(model=.., messages=.., tools=..)] *)
Definition create (r : request) : M completion :=
  fun s => (service (length (requests s)) r, record_request r s).

(** Lines 175-177 and 182-184. *)
Definition append_reply (reply : pystr) : M unit :=
  append_message (Dict (str "assistant") reply) ;;
  append_display (Dict (str "assistant") reply) ;;
  log_conversation (str "assistant") reply.

Definition follow_up_request (transcript : list message)
    (message : chat_message) (tc : tool_call) (result : pystr) : request :=
  {| req_model := gpt5;
     req_messages :=
       transcript ++ [ModelMessage message; ToolDict (tc_id tc) result];
     req_tools := None |}.

(** The body of [for tc in tool_calls], lines 150-177. *)
Definition handle_tool_call (message : chat_message) (tc : tool_call)
    : M unit :=
  result <- lift (execute_tool tc) ;;
  transcript <- gets messages ;;
  second_completion <- create (follow_up_request transcript message tc result) ;;
  final_msg <- first_message second_completion ;;
  append_reply (py_or (content final_msg) result).

Definition first_request (transcript : list message) : request :=
  {| req_model := gpt5; req_messages := transcript;
     req_tools := Some tools |}.

(** The body of [try], lines 137-184. *)
Definition try_body : M unit :=
  transcript <- gets messages ;;
  completion <- create (first_request transcript) ;;
  message <- first_message completion ;;
  match tool_calls message with
  | Some (tc :: rest) => for_each (handle_tool_call message) (tc :: rest)
  | _ => append_reply (py_or (content message) no_response)
  end.

(** The [except Exception as e] block, lines 187-189. *)
Definition on_exception (e : exn) : M unit :=
  st_error (api_error_text e) ;;
  logger_exception e ;;
  log_conversation (str "error") (exn_text e).

(** The body of [if user_input], lines 132-189. *)
Definition chat_turn (user_input : pystr) : M unit :=
  append_message (Dict (str "user") user_input) ;;
  append_display (Dict (str "user") user_input) ;;
  log_conversation (str "user") user_input ;;
  try_except try_body on_exception.

(** The state in which a turn ends. *)
Definition turn (user_input : pystr) (s : session) : session :=
  snd (chat_turn user_input s).

(** One run of the script's chat section: [st.chat_input] gives [None] or
    the submitted text, and an empty text is falsy. *)
Definition script_run (user_input : option pystr) (s : session) : session :=
  match user_input with
  | Some (c :: u) => turn (c :: u) s
  | _ => s
  end.

(** The session after a sequence of runs. *)
Definition session_after (inputs : list (option pystr)) : session :=
  fold_left (fun s user_input => script_run user_input s) inputs
            initial_session.

(** ** 11. Render conversation *)

(** Lines 194-196: one chat bubble per entry of the display transcript,
    named by [msg["role"]] and filled with [msg["content"]].  Only a dict
    can be subscripted: on the message object of a response the loop raises
    [TypeError], which is [None] here. *)
Definition bubble (msg : message) : option (pystr * pystr) :=
  match msg with
  | Dict role content => Some (role, content)
  | ToolDict _ content => Some (str "tool", content)
  | ModelMessage _ => None
  end.
Definition render (display : list message) : option (list (pystr * pystr)) :=
  mapM bubble display.

(** ** Vocabulary of the specification *)

(** [field] contains [q] case-insensitively. *)
Definition contains_ci (q field : pystr) : Prop :=
  exists before after, lower field = before ++ lower q ++ after.

(** The entry qualifies for the query: its question or its answer contains
    the query case-insensitively. *)
Definition qualifies (q : pystr) (faq : faq_entry) : Prop :=
  contains_ci q (question faq) \/ contains_ci q (answer faq).

(** The record's order id equals [i] case-insensitively. *)
Definition same_id (i : pystr) (order : order_record) : Prop :=
  lower (order_id order) = lower i.

(** [x] is the first element of [l] with property [P]. *)
Definition first_with {A} (P : A -> Prop) (l : list A) (x : A) : Prop :=
  exists before after,
    l = before ++ x :: after /\ P x /\ Forall (fun y => ~ P y) before.

Definition user_entry (text : pystr) : message := Dict (str "user") text.
Definition assistant_entry (reply : pystr) : message :=
  Dict (str "assistant") reply.

(** The texts of consecutive [log_conversation] calls, the first of them
    being call number [n] of the session. *)
Fixpoint log_lines (n : nat) (entries : list (pystr * pystr)) : list pystr :=
  match entries with
  | [] => []
  | (role, content) :: rest =>
      log_line (now n) role content :: log_lines (S n) rest
  end.

(** The log entries of a turn: the user's message, the replies, and the
    error if the turn ended in the handler. *)
Definition turn_entries (user_input : pystr) (replies : list pystr)
    (err : option exn) : list (pystr * pystr) :=
  (str "user", user_input)
  :: map (fun reply => (str "assistant", reply)) replies
  ++ match err with
     | Some e => [(str "error", exn_text e)]
     | None => []
     end.

(** The session with [m] appended to both transcripts (lines 132-133,
    175-176, 182-183), and the session after [st.error] and
    [logger.exception] of the handler (lines 187-188). *)
Definition with_entry (m : message) (s : session) : session :=
  {| messages := messages s ++ [m];
     display_messages := display_messages s ++ [m];
     log_file := log_file s; ui_errors := ui_errors s;
     debug_log := debug_log s; requests := requests s;
     log_calls := log_calls s |}.
Definition boxed (e : exn) (s : session) : session :=
  {| messages := messages s; display_messages := display_messages s;
     log_file := log_file s; ui_errors := ui_errors s ++ [api_error_text e];
     debug_log := debug_log s ++ [e]; requests := requests s;
     log_calls := log_calls s |}.

(** The text that a call of [log_conversation] in [s] writes, and the
    exception it meets, if any. *)
Definition line_in (s : session) (role content : pystr) : pystr :=
  log_line (now (log_calls s)) role content.
Definition write_error_in (s : session) (role content : pystr) : option exn :=
  write_error (log_calls s) (line_in s role content).

(** The session after lines 132-134, after lines 175-177 (or 182-184) for
    [reply], and after the handler of lines 187-189 ran on [e], when the
    line was written. *)
Definition user_state (user_input : pystr) (s : session) : session :=
  write_log (line_in s (str "user") user_input)
            (with_entry (user_entry user_input) s).
Definition reply_state (reply : pystr) (s : session) : session :=
  write_log (line_in s (str "assistant") reply)
            (with_entry (assistant_entry reply) s).
Definition error_state (e : exn) (s : session) : session :=
  write_log (line_in s (str "error") (exn_text e)) (boxed e s).

(** The writes that succeed among those of consecutive calls of
    [log_conversation], the first of them being call number [n]. *)
Fixpoint written_lines (n : nat) (entries : list (pystr * pystr))
    : list pystr :=
  match entries with
  | [] => []
  | (role, content) :: rest =>
      match write_error n (log_line (now n) role content) with
      | None => [log_line (now n) role content]
      | Some _ => []
      end ++ written_lines (S n) rest
  end.

(** One handled tool call: the request, the result of the tool and the
    reply adopted for it. *)
Record tool_step := {
  step_call : tool_call;
  step_result : pystr;
  step_reply : pystr
}.

(** The follow-up requests of consecutive handled tool calls, the first of
    them issued when the transcript is [transcript]. *)
Fixpoint follow_up_requests (transcript : list message)
    (message : chat_message) (steps : list tool_step) : list request :=
  match steps with
  | [] => []
  | st :: rest =>
      follow_up_request transcript message (step_call st) (step_result st)
      :: follow_up_requests
           (transcript ++ [assistant_entry (step_reply st)]) message rest
  end.

(** Each step, in order: the tool gave [step_result]; the follow-up request
    built on the transcript of that moment was request number [n] and was
    answered; [step_reply] is the text of the answer, or the tool result
    when that text is empty or absent. *)
Fixpoint steps_handled (transcript : list message) (n : nat)
    (message : chat_message) (steps : list tool_step) : Prop :=
  match steps with
  | [] => True
  | st :: rest =>
      execute_tool (step_call st) = Return (step_result st)
      /\ (exists final others,
            service n (follow_up_request transcript message (step_call st)
                         (step_result st))
            = Return {| choices := final :: others |}
            /\ step_reply st = py_or (content final) (step_result st))
      /\ steps_handled (transcript ++ [assistant_entry (step_reply st)])
                       (S n) message rest
  end.

(** In the turn on [user_input] started in [s0], the script is in state [s]
    and about to send request [r]: the user's line was written, and this
    is either the first request of line 138, or the follow-up request of
    line 168 for a tool call [tc], after the calls before it were handled
    and the tool gave [result]. *)
Inductive about_to_call (user_input : pystr) (s0 : session)
    : session -> request -> Prop :=
| first_call :
    write_error_in s0 (str "user") user_input = None ->
    about_to_call user_input s0 (user_state user_input s0)
      (first_request (messages (user_state user_input s0)))
| follow_up_call (message : chat_message) (others : list chat_message)
    (handled : list tool_call) (tc : tool_call) (rest : list tool_call)
    (result : pystr) (s : session) :
    write_error_in s0 (str "user") user_input = None ->
    service (length (requests s0))
            (first_request (messages (user_state user_input s0)))
    = Return {| choices := message :: others |} ->
    tool_calls message = Some (handled ++ tc :: rest) ->
    for_each (handle_tool_call message) handled
      (record_request (first_request (messages (user_state user_input s0)))
                      (user_state user_input s0))
    = (Return tt, s) ->
    execute_tool tc = Return result ->
    about_to_call user_input s0 s
      (follow_up_request (messages s) message tc result).

(** The code points of [text] fit the pattern: a letter of the pattern
    stands for a decimal digit, any other character for itself. *)
Definition is_digit (c : N) : Prop := (48 <= c <= 57)%N.
Definition is_letter (c : N) : bool := ((65 <=? c) && (c <=? 90))%N.
Definition fits (pattern text : pystr) : Prop :=
  Forall2 (fun p c => if is_letter p then is_digit c else c = p) pattern text.

(** The text has no line feed. *)
Definition one_line (text : pystr) : Prop := LF ∉ text.

(** A system or tool entry: bookkeeping that is never shown. *)
Definition bookkeeping (m : message) : bool :=
  bool_decide (role_of m = str "system")
  || bool_decide (role_of m = str "tool").

(** The transcript without its system and tool entries. *)
Definition without_bookkeeping (transcript : list message) : list message :=
  filter (fun m => bookkeeping m = false) transcript.

(** An entry made of a user's input or of an assistant's reply. *)
Definition user_or_assistant (m : message) : Prop :=
  exists text, m = Dict (str "user") text \/ m = Dict (str "assistant") text.


(** The tool calls a response asks for: none when the call raised, when
    there is no choice, or when the message has no tool calls. *)
Definition requested_calls (answer : outcome completion) : list tool_call :=
  match answer with
  | Return {| choices := m :: _ |} => default [] (tool_calls m)
  | _ => []
  end.

(** The call follows the schema of the descriptor: it has the descriptor's
    name, its arguments decode to an object, and every required parameter
    is there with a string for value. *)
Definition follows_schema (tc : tool_call) (descriptor : tool_descriptor)
    : Prop :=
  function_name tc = tool_name descriptor
  /\ exists d,
       function_arguments tc = Return (PyDict d)
       /\ Forall (fun key => exists text, d !! key = Some (PyStr text))
                 (tool_required descriptor).

(** The entry is a plain dict. *)
Definition is_dict (m : message) : Prop :=
  exists role text, m = Dict role text.

(** A request as the script sends them: to "gpt-5"; either a first request,
    with the tool catalog and plain dicts for messages, or a follow-up
    request, with no catalog and, after plain dicts, the message of a
    response and one tool entry. *)
Definition well_formed (r : request) : Prop :=
  req_model r = str "gpt-5"
  /\ ((req_tools r = Some tools /\ Forall is_dict (req_messages r))
      \/ (req_tools r = None
          /\ exists transcript m call_id result,
               req_messages r
               = transcript ++ [ModelMessage m; ToolDict call_id result]
               /\ Forall is_dict transcript)).

(** From [s] to [s'] the script appended [added] to both transcripts,
    called [log_conversation] on [entries], handled the exceptions
    [handled] and sent the requests [sent], and did nothing else. *)
Definition grows (s s' : session) (added : list message)
    (entries : list (pystr * pystr)) (handled : list exn)
    (sent : list request) : Prop :=
  messages s' = messages s ++ added
  /\ display_messages s' = display_messages s ++ added
  /\ log_calls s' = log_calls s + length entries
  /\ log_file s' = log_file s ++ written_lines (log_calls s) entries
  /\ ui_errors s' = ui_errors s ++ map api_error_text handled
  /\ debug_log s' = debug_log s ++ handled
  /\ requests s' = requests s ++ sent.

(** Every one of the consecutive calls of [log_conversation] on [entries],
    the first of them being call number [n], writes its line. *)
Fixpoint writes_succeed (n : nat) (entries : list (pystr * pystr)) : Prop :=
  match entries with
  | [] => True
  | (role, content) :: rest =>
      write_error n (log_line (now n) role content) = None
      /\ writes_succeed (S n) rest
  end.

(** * Properties *)

(** ** Strings *)

Lemma startswith_spec (p s : pystr) :
  startswith p s = true <-> exists after, s = p ++ after.
Proof.
  revert s. induction p as [|a p IH]; intros s; simpl.
  - split; [intros _; by exists s | done].
  - destruct s as [|b s].
    + split; [done | intros [after H]; discriminate H].
    + rewrite andb_true_iff, N.eqb_eq, IH. split.
      * intros [-> [after ->]]. by exists after.
      * intros [after H]. injection H as -> ->. split; [done | by exists after].
Qed.

Lemma contains_spec (needle hay : pystr) :
  contains needle hay = true
  <-> exists before after, hay = before ++ needle ++ after.
Proof.
  induction hay as [|c hay IH]; simpl.
  - rewrite orb_false_r, startswith_spec. split.
    + intros [after H]. by exists [], after.
    + intros [before [after H]]. destruct before as [|b before]; [|done].
      by exists after.
  - rewrite orb_true_iff, startswith_spec, IH. split.
    + intros [[after H] | [before [after H]]].
      * by exists [], after.
      * exists (c :: before), after. by rewrite H.
    + intros [before [after H]]. destruct before as [|b before].
      * left. by exists after.
      * right. injection H as _ H. by exists before, after.
Qed.

Lemma contains_empty (hay : pystr) : contains [] hay = true.
Proof. by destruct hay. Qed.

Lemma faq_matches_spec (q : pystr) (faq : faq_entry) :
  faq_matches q faq = true <-> qualifies q faq.
Proof.
  unfold faq_matches, qualifies, contains_ci.
  by rewrite orb_true_iff, !contains_spec.
Qed.

Lemma order_matches_spec (i : pystr) (order : order_record) :
  order_matches i order = true <-> same_id i order.
Proof. unfold order_matches, same_id. by rewrite bool_decide_eq_true. Qed.

(** ** Knowledge store *)

Lemma lookup_faq_in_spec (data : list faq_entry) (q : pystr) :
  (exists faq, first_with (qualifies q) data faq
               /\ lookup_faq_in data q = answer faq)
  \/ (Forall (fun faq => ~ qualifies q faq) data
      /\ lookup_faq_in data q = faq_not_found).
Proof.
  induction data as [|faq data IH]; simpl.
  - right. by split.
  - destruct (faq_matches q faq) eqn:Hm.
    + left. exists faq. split; [|done].
      exists [], data. repeat split; [|done]. by apply faq_matches_spec.
    + assert (~ qualifies q faq) as Hn.
      { rewrite <- faq_matches_spec. by rewrite Hm. }
      destruct IH as [[faq' [[before [after [-> [Hq Hb]]]] Heq]] | [Hall Heq]].
      * left. exists faq'. split; [|done].
        exists (faq :: before), after. repeat split; [done|].
        by constructor.
      * right. split; [by constructor | done].
Qed.

(** C1: for every query the result of [lookup_faq] is the answer of the
    first FAQ entry whose question or answer contains the query
    case-insensitively, or the not-found sentence when no entry qualifies;
    one of the two holds for every input string. *)
Theorem lookup_faq_first_match (q : pystr) :
  (exists faq, first_with (qualifies q) faq_data faq
               /\ lookup_faq q = answer faq)
  \/ (Forall (fun faq => ~ qualifies q faq) faq_data
      /\ lookup_faq q
         = str "Sorry, I couldn't find that information.").
Proof. apply lookup_faq_in_spec. Qed.

Lemma status_text_not_sentinel (i : pystr) (order : order_record) :
  order_status_text i order <> order_not_found i.
Proof.
  intros H. apply (f_equal length) in H.
  unfold order_status_text, order_not_found in H.
  rewrite !length_app in H. cbn in H. lia.
Qed.

Lemma get_order_status_in_spec (data : list order_record) (i : pystr) :
  (exists order, first_with (same_id i) data order
                 /\ get_order_status_in data i = order_status_text i order)
  \/ (Forall (fun order => ~ same_id i order) data
      /\ get_order_status_in data i = order_not_found i).
Proof.
  induction data as [|order data IH]; simpl.
  - right. by split.
  - destruct (order_matches i order) eqn:Hm.
    + left. exists order. split; [|done].
      exists [], data. repeat split; [|done]. by apply order_matches_spec.
    + assert (~ same_id i order) as Hn.
      { rewrite <- order_matches_spec. by rewrite Hm. }
      destruct IH as [[o [[before [after [-> [Hq Hb]]]] Heq]] | [Hall Heq]].
      * left. exists o. split; [|done].
        exists (order :: before), after. repeat split; [done|].
        by constructor.
      * right. split; [by constructor | done].
Qed.

Lemma first_with_not_none {A} (P : A -> Prop) (l : list A) (x : A) :
  first_with P l x -> ~ Forall (fun y => ~ P y) l.
Proof.
  intros [before [after [-> [HP _]]]] Hall.
  apply Forall_app in Hall as [_ Hall]. by inversion Hall.
Qed.

Section AsciiText.

(** On ASCII text [str.lower] lowers the letters A-Z and nothing else.
    This is all that is assumed of it, and only where the concrete tables
    are evaluated. *)
Hypothesis lower_ascii : forall s, is_ascii s -> lower s = ascii_lower s.

Ltac ascii_text := vm_compute; repeat constructor.

(** C2: [get_order_status i] is the not-found sentence, echoing [i], exactly
    when no record's order id equals [i] case-insensitively; otherwise it is
    the status sentence with the status and the eta of the (first) matching
    record; on "ORD124" and on "zzz" it gives the two sentences of the
    scenarios. *)
Theorem get_order_status_spec :
  (forall i, get_order_status i = str "Order ID " ++ i ++ str " not found."
             <-> Forall (fun order => ~ same_id i order) order_data)
  /\ (forall i, ~ Forall (fun order => ~ same_id i order) order_data ->
        exists order,
          first_with (same_id i) order_data order
          /\ get_order_status i
             = str "Order " ++ i ++ str " is " ++ status order
               ++ str " and will arrive by " ++ eta order ++ str ".")
  /\ get_order_status (str "ORD124")
     = str "Order ORD124 is Delivered and will arrive by 2025-10-22."
  /\ get_order_status (str "zzz") = str "Order ID zzz not found.".
Proof.
  split; [|split; [|split]].
  - intros i. split.
    + intros H.
      destruct (get_order_status_in_spec order_data i)
        as [[order [_ Heq]] | [Hall _]]; [|done].
      unfold get_order_status in H. rewrite Heq in H.
      by apply status_text_not_sentinel in H.
    + intros Hall.
      destruct (get_order_status_in_spec order_data i)
        as [[order [Hfirst _]] | [_ Heq]]; [|done].
      by apply first_with_not_none in Hfirst.
  - intros i Hsome.
    destruct (get_order_status_in_spec order_data i)
      as [[order [Hfirst Heq]] | [Hall _]]; [|done].
    by exists order.
  - unfold get_order_status, order_data, get_order_status_in, order_matches.
    cbn [order_id].
    rewrite !lower_ascii by ascii_text. by vm_compute.
  - unfold get_order_status, order_data, get_order_status_in, order_matches.
    cbn [order_id].
    rewrite !lower_ascii by ascii_text. by vm_compute.
Qed.

(** C9: on the empty string [lookup_faq] never gives the not-found sentence:
    the empty string is contained in every string and the table is not
    empty, so the result is the first entry's answer; a [lookup_faq] tool
    call whose decoded arguments lack the key "query" gets that answer. *)
Theorem lookup_faq_empty_query :
  lookup_faq []
  = str "Go to Account Settings " ++ [rightwards_arrow] ++ str " Security "
    ++ [rightwards_arrow] ++ str " Reset Password."
  /\ lookup_faq [] <> str "Sorry, I couldn't find that information."
  /\ forall tc d,
       function_name tc = str "lookup_faq" ->
       function_arguments tc = Return (PyDict d) ->
       d !! str "query" = None ->
       execute_tool tc
       = Return (str "Go to Account Settings " ++ [rightwards_arrow]
                 ++ str " Security " ++ [rightwards_arrow]
                 ++ str " Reset Password.").
Proof.
  assert (lookup_faq []
          = str "Go to Account Settings " ++ [rightwards_arrow]
            ++ str " Security " ++ [rightwards_arrow]
            ++ str " Reset Password.") as Hempty.
  { unfold lookup_faq, faq_data, lookup_faq_in, faq_matches.
    rewrite (lower_ascii []) by constructor.
    change (ascii_lower []) with (@nil N). by rewrite contains_empty. }
  split; [|split].
  - done.
  - rewrite Hempty. by vm_compute.
  - intros tc d Hname Hargs Hkey. unfold execute_tool.
    rewrite Hargs, Hname. rewrite decide_True by done.
    unfold py_get. rewrite Hkey. simpl. by rewrite Hempty.
Qed.

End AsciiText.

(** ** Dialogue engine: what the statements do to the session *)

Lemma for_each_cons {A} (body : A -> M unit) (x : A) (rest : list A)
    (s : session) :
  for_each body (x :: rest) s
  = match body x s with
    | (Return _, s') => for_each body rest s'
    | (Raise e, s') => (Raise e, s')
    end.
Proof. reflexivity. Qed.

Lemma for_each_app {A} (body : A -> M unit) (l1 l2 : list A)
    (s s1 : session) :
  for_each body l1 s = (Return tt, s1) ->
  for_each body (l1 ++ l2) s = for_each body l2 s1.
Proof.
  revert s. induction l1 as [|x l1 IH]; intros s H.
  - by injection H as ->.
  - simpl app. rewrite for_each_cons in *.
    destruct (body x s) as [[[]|e] s']; [by apply IH | done].
Qed.

Lemma append_reply_unfold (reply : pystr) (s : session) :
  append_reply reply s
  = match write_error_in s (str "assistant") reply with
    | None => (Return tt, reply_state reply s)
    | Some e => (Raise e, fail_log (with_entry (assistant_entry reply) s))
    end.
Proof.
  unfold append_reply, bind, append_message, append_display, modify,
    log_conversation, write_error_in, line_in.
  simpl. by destruct (write_error _ _).
Qed.

Lemma on_exception_unfold (e : exn) (s : session) :
  on_exception e s
  = match write_error_in s (str "error") (exn_text e) with
    | None => (Return tt, error_state e s)
    | Some e' => (Raise e', fail_log (boxed e s))
    end.
Proof.
  unfold on_exception, bind, st_error, logger_exception, modify,
    log_conversation, write_error_in, line_in.
  simpl. by destruct (write_error _ _).
Qed.

Lemma handle_tool_call_unfold (message : chat_message) (tc : tool_call)
    (s : session) :
  handle_tool_call message tc s
  = match execute_tool tc with
    | Raise e => (Raise e, s)
    | Return result =>
        let r := follow_up_request (messages s) message tc result in
        match service (length (requests s)) r with
        | Raise e => (Raise e, record_request r s)
        | Return c =>
            match choices c with
            | [] => (Raise IndexError, record_request r s)
            | final :: _ =>
                append_reply (py_or (content final) result)
                             (record_request r s)
            end
        end
    end.
Proof.
  unfold handle_tool_call, bind, lift, gets, create, first_message.
  destruct (execute_tool tc) as [result|e]; [|done]. simpl.
  destruct (service _ _) as [c|e]; [|done].
  by destruct (choices c).
Qed.

Lemma try_body_unfold (s : session) :
  try_body s
  = let r := first_request (messages s) in
    let s2 := record_request r s in
    match service (length (requests s)) r with
    | Raise e => (Raise e, s2)
    | Return c =>
        match choices c with
        | [] => (Raise IndexError, s2)
        | message :: _ =>
            match tool_calls message with
            | Some (tc :: rest) =>
                for_each (handle_tool_call message) (tc :: rest) s2
            | _ => append_reply (py_or (content message) no_response) s2
            end
        end
    end.
Proof.
  unfold try_body, bind, gets, create, first_message. simpl.
  destruct (service _ _) as [c|e]; [|done].
  destruct (choices c) as [|message others]; [done|]. simpl.
  by destruct (tool_calls message) as [[|tc rest]|].
Qed.

(** The chat section: the user's entry, its line, then the [try] body with
    the handler on what it raises. *)
Lemma chat_turn_unfold (user_input : pystr) (s : session) :
  chat_turn user_input s
  = match write_error_in s (str "user") user_input with
    | Some e => (Raise e, fail_log (with_entry (user_entry user_input) s))
    | None =>
        match try_body (user_state user_input s) with
        | (Return _, s') => (Return tt, s')
        | (Raise e, s') => on_exception e s'
        end
    end.
Proof.
  unfold chat_turn, bind, append_message, append_display, modify,
    log_conversation, try_except, write_error_in, line_in.
  simpl. destruct (write_error _ _); [done|].
  by destruct (try_body _) as [[[]|e] s'].
Qed.

(** *** What is added from one state to another *)

Lemma written_lines_app (n : nat) (l1 l2 : list (pystr * pystr)) :
  written_lines n (l1 ++ l2)
  = written_lines n l1 ++ written_lines (n + length l1) l2.
Proof.
  revert n. induction l1 as [|[role text] l1 IH]; intros n; simpl.
  - by rewrite Nat.add_0_r.
  - rewrite IH, <- app_assoc.
    by replace (S n + length l1) with (n + S (length l1)) by lia.
Qed.

Lemma written_lines_length (n : nat) (l : list (pystr * pystr)) :
  length (written_lines n l) <= length l.
Proof.
  revert n. induction l as [|[role text] l IH]; intros n; simpl; [done|].
  rewrite length_app. specialize (IH (S n)).
  destruct (write_error _ _); simpl; lia.
Qed.

Lemma log_lines_length (n : nat) (l : list (pystr * pystr)) :
  length (log_lines n l) = length l.
Proof.
  revert n. induction l as [|[role text] l IH]; intros n; simpl; [done|].
  by rewrite IH.
Qed.

(** When every call writes its line, the lines written are the lines of
    all the calls; otherwise they are fewer. *)
Lemma written_lines_succeed (n : nat) (l : list (pystr * pystr)) :
  writes_succeed n l -> written_lines n l = log_lines n l.
Proof.
  revert n. induction l as [|[role text] l IH]; intros n; simpl; [done|].
  intros [-> Hrest]. simpl. f_equal. by apply IH.
Qed.

Lemma written_lines_fewer (n : nat) (l : list (pystr * pystr)) :
  ~ writes_succeed n l -> length (written_lines n l) < length l.
Proof.
  revert n. induction l as [|[role text] l IH]; intros n; simpl; [done|].
  intros Hnot. rewrite length_app. pose proof (written_lines_length (S n) l).
  destruct (write_error _ _) eqn:Hwrite; simpl; [lia|].
  assert (length (written_lines (S n) l) < length l); [|lia].
  apply IH. intros Hrest. by apply Hnot.
Qed.

Lemma grows_refl (s : session) : grows s s [] [] [] [].
Proof. unfold grows. simpl. by rewrite !app_nil_r, Nat.add_0_r. Qed.

Lemma grows_trans (s1 s2 s3 : session) (a a' : list message)
    (l l' : list (pystr * pystr)) (h h' : list exn) (r r' : list request) :
  grows s1 s2 a l h r -> grows s2 s3 a' l' h' r' ->
  grows s1 s3 (a ++ a') (l ++ l') (h ++ h') (r ++ r').
Proof.
  intros (Hm & Hd & Hc & Hl & Hu & Hg & Hr)
         (Hm' & Hd' & Hc' & Hl' & Hu' & Hg' & Hr').
  unfold grows.
  rewrite Hm', Hm, Hd', Hd, Hc', Hc, Hl', Hl, Hu', Hu, Hg', Hg, Hr', Hr.
  rewrite written_lines_app, map_app, length_app, <- !app_assoc.
  repeat split; try done; [lia | by rewrite Hc].
Qed.

Lemma grows_log (role content : pystr) (s : session) :
  grows s (snd (log_conversation role content s)) []
        [(role, content)] [] [].
Proof.
  unfold log_conversation, grows. simpl.
  destruct (write_error _ _); simpl; rewrite ?app_nil_r;
    repeat split; try done; lia.
Qed.

Lemma grows_request (r : request) (s : session) :
  grows s (record_request r s) [] [] [] [r].
Proof. unfold grows. simpl. by rewrite !app_nil_r, Nat.add_0_r. Qed.

Lemma grows_reply (reply : pystr) (s : session) :
  grows s (snd (append_reply reply s)) [assistant_entry reply]
        [(str "assistant", reply)] [] [].
Proof.
  rewrite append_reply_unfold. unfold grows, write_error_in, line_in.
  simpl. destruct (write_error _ _); simpl; rewrite ?app_nil_r;
    repeat split; try done; lia.
Qed.

Lemma grows_handler (e : exn) (s : session) :
  grows s (snd (on_exception e s)) [] [(str "error", exn_text e)] [e] [].
Proof.
  rewrite on_exception_unfold. unfold grows, write_error_in, line_in.
  simpl. destruct (write_error _ _); simpl; rewrite ?app_nil_r;
    repeat split; try done; lia.
Qed.

(** *** The loop over the tool calls *)

(** Whatever its outcome, the loop adds one assistant entry per call it
    came to answer, calls [log_conversation] once for each of them, and
    sends at most one follow-up request per call, each built on a transcript
    with property [P], which the transcript keeps. *)
Lemma for_each_summary (P : list message -> Prop) (message : chat_message)
    (tcs : list tool_call) (s : session) :
  (forall transcript reply,
     P transcript -> P (transcript ++ [assistant_entry reply])) ->
  P (messages s) ->
  exists replies sent,
    grows s (snd (for_each (handle_tool_call message) tcs s))
          (map assistant_entry replies)
          (map (fun reply => (str "assistant", reply)) replies) [] sent
    /\ length replies <= length sent
    /\ length sent <= length tcs
    /\ (fst (for_each (handle_tool_call message) tcs s) = Return tt ->
        length replies = length tcs)
    /\ Forall (fun r => exists transcript tc result,
                 P transcript
                 /\ r = follow_up_request transcript message tc result)
              sent.
Proof.
  intros Hkeep. revert s. induction tcs as [|tc tcs IH]; intros s HP.
  - exists [], []. split; [apply grows_refl|]. by repeat split.
  - rewrite for_each_cons, handle_tool_call_unfold.
    destruct (execute_tool tc) as [result|e].
    2:{ exists [], []. split; [apply grows_refl|].
        repeat split; simpl; try done; lia. }
    cbv zeta. set (r := follow_up_request (messages s) message tc result).
    assert (Forall (fun r => exists transcript tc result,
                      P transcript
                      /\ r = follow_up_request transcript message tc result)
                   [r]) as Hone.
    { constructor; [|done]. by exists (messages s), tc, result. }
    assert (forall e : exn, exists replies sent,
              grows s (record_request r s) (map assistant_entry replies)
                (map (fun reply => (str "assistant", reply)) replies) []
                sent
              /\ length replies <= length sent
              /\ length sent <= length (tc :: tcs)
              /\ (@Raise unit e = Return tt ->
                  length replies = length (tc :: tcs))
              /\ Forall (fun r => exists transcript tc result,
                           P transcript
                           /\ r = follow_up_request transcript message tc
                                    result)
                        sent) as Hstop.
    { intros e. exists [], [r]. split; [apply grows_request|].
      repeat split; simpl; try done; lia. }
    destruct (service _ r) as [c|e]; [|exact (Hstop e)].
    destruct (choices c) as [|final others]; [exact (Hstop IndexError)|].
    clear Hstop.
    set (reply := py_or (content final) result).
    pose proof (grows_trans _ _ _ _ _ _ _ _ _ _ _
                  (grows_request r s) (grows_reply reply (record_request r s)))
      as Hstep.
    destruct (append_reply reply (record_request r s)) as [[[]|e] s1]
      eqn:Happ; simpl in Hstep.
    + destruct (IH s1) as (replies & sent & Hrest & Hle & Hlen & Hall & Hshape).
      { destruct Hstep as (-> & _). by apply Hkeep. }
      exists (reply :: replies), (r :: sent).
      split; [exact (grows_trans _ _ _ _ _ _ _ _ _ _ _ Hstep Hrest)|].
      repeat split; simpl; try lia.
      * intros Hret. by rewrite Hall.
      * apply Forall_cons. split; [|done]. by apply Forall_cons in Hone as [? _].
    + exists [reply], [r]. split; [exact Hstep|].
      repeat split; simpl; try done; lia.
Qed.

(** The loop over the tool calls, when it ends without an exception. *)
Lemma for_each_return (message : chat_message) (tcs : list tool_call)
    (s s' : session) :
  for_each (handle_tool_call message) tcs s = (Return tt, s') ->
  exists steps,
    map step_call steps = tcs
    /\ steps_handled (messages s) (length (requests s)) message steps
    /\ messages s' = messages s ++ map assistant_entry (map step_reply steps)
    /\ display_messages s'
       = display_messages s ++ map assistant_entry (map step_reply steps)
    /\ log_file s'
       = log_file s
         ++ log_lines (log_calls s)
              (map (fun reply => (str "assistant", reply))
                   (map step_reply steps))
    /\ log_calls s' = log_calls s + length steps
    /\ ui_errors s' = ui_errors s /\ debug_log s' = debug_log s
    /\ requests s'
       = requests s ++ follow_up_requests (messages s) message steps.
Proof.
  revert s. induction tcs as [|tc tcs IH]; intros s H.
  - injection H as <-. exists []. simpl. by rewrite !app_nil_r, Nat.add_0_r.
  - rewrite for_each_cons, handle_tool_call_unfold in H.
    destruct (execute_tool tc) as [result|e] eqn:Htool; [|done].
    cbv zeta in H.
    destruct (service _ _) as [c|e] eqn:Hservice; [|done].
    destruct c as [[|final others]]; [done|]. simpl choices in H.
    cbv iota in H. rewrite append_reply_unfold in H.
    destruct (write_error_in _ _ _) eqn:Hwrite; [done|].
    apply IH in H
      as (steps & Hcalls & Hsteps & Hm & Hd & Hl & Hc & Hu & Hg & Hr).
    simpl in Hsteps, Hm, Hd, Hl, Hc, Hu, Hg, Hr.
    exists ({| step_call := tc; step_result := result;
               step_reply := py_or (content final) result |} :: steps).
    simpl. rewrite Hcalls, Hm, Hd, Hl, Hc, Hu, Hg, Hr.
    rewrite length_app in *. simpl in *.
    replace (length (requests s) + 1) with (S (length (requests s)))
      in Hsteps by lia.
    rewrite <- !app_assoc. simpl. unfold line_in. simpl.
    repeat split; try done; try lia. by exists final, others.
Qed.

(** *** A whole turn *)

(** The [try] body, whatever its outcome: the first request and at most one
    follow-up request per requested call are sent; one assistant entry and
    one call of [log_conversation] are made per reply. *)
Lemma try_body_summary (P : list message -> Prop) (s : session) :
  (forall transcript reply,
     P transcript -> P (transcript ++ [assistant_entry reply])) ->
  P (messages s) ->
  exists replies more,
    grows s (snd (try_body s)) (map assistant_entry replies)
          (map (fun reply => (str "assistant", reply)) replies) []
          (first_request (messages s) :: more)
    /\ length more
       <= length (requested_calls
                    (service (length (requests s))
                             (first_request (messages s))))
    /\ Forall (fun r => exists transcript message tc result,
                 P transcript
                 /\ r = follow_up_request transcript message tc result)
              more.
Proof.
  intros Hkeep HP. rewrite try_body_unfold. cbv zeta.
  set (r := first_request (messages s)).
  pose proof (grows_request r s) as Hfirst.
  destruct (service _ r) as [c|e].
  2:{ exists [], []. split; [exact Hfirst | split; [simpl; lia | done]]. }
  destruct c as [[|message others]]; simpl choices; cbv iota.
  { exists [], []. split; [exact Hfirst | split; [simpl; lia | done]]. }
  assert (exists replies more,
    grows s (snd (append_reply (py_or (content message) no_response)
                               (record_request r s)))
          (map assistant_entry replies)
          (map (fun reply => (str "assistant", reply)) replies) []
          (r :: more)
    /\ length more <= length (default [] (tool_calls message))
    /\ Forall (fun r => exists transcript message tc result,
                 P transcript
                 /\ r = follow_up_request transcript message tc result)
              more) as Hplain.
  { exists [py_or (content message) no_response], [].
    split; [|split; [simpl; lia|done]].
    exact (grows_trans _ _ _ _ _ _ _ _ _ _ _ Hfirst (grows_reply _ _)). }
  simpl requested_calls.
  destruct (tool_calls message) as [[|tc rest]|]; [done| |done].
  clear Hplain.
  destruct (for_each_summary P message (tc :: rest) (record_request r s) Hkeep)
    as (replies & more & Hloop & _ & Hlen & _ & Hshape); [done|].
  exists replies, more.
  split; [exact (grows_trans _ _ _ _ _ _ _ _ _ _ _ Hfirst Hloop)|].
  split; [done|].
  eapply Forall_impl; [exact Hshape|].
  intros r' (transcript & tc' & result & Hr).
  by exists transcript, message, tc', result.
Qed.

(** A whole turn, whatever the service answers and whatever becomes of the
    writes to the log: the user's entry and then one assistant entry per
    reply go to both transcripts; [log_conversation] is called on the
    user's message, on every reply, and on the error if the handler ran;
    the handler shows one error box.  Nothing is sent when the user's line
    cannot be written. *)
Lemma turn_summary (P : list message -> Prop) (user_input : pystr)
    (s : session) :
  (forall transcript reply,
     P transcript -> P (transcript ++ [assistant_entry reply])) ->
  P (messages s ++ [user_entry user_input]) ->
  exists replies err sent,
    grows s (turn user_input s)
          (user_entry user_input :: map assistant_entry replies)
          (turn_entries user_input replies err)
          (match err with Some e => [e] | None => [] end) sent
    /\ match write_error_in s (str "user") user_input with
       | Some _ => replies = [] /\ err = None /\ sent = []
       | None =>
           exists more,
             sent = first_request (messages s ++ [user_entry user_input])
                    :: more
             /\ length more
                <= length (requested_calls
                             (service (length (requests s))
                                (first_request
                                   (messages s ++ [user_entry user_input]))))
             /\ Forall (fun r => exists transcript message tc result,
                          P transcript
                          /\ r = follow_up_request transcript message tc
                                   result)
                       more
       end.
Proof.
  intros Hkeep HP. unfold turn. rewrite chat_turn_unfold.
  assert (grows s (snd (log_conversation (str "user") user_input
                          (with_entry (user_entry user_input) s)))
                [user_entry user_input] [(str "user", user_input)] [] [])
    as Huser.
  { pose proof (grows_log (str "user") user_input
                  (with_entry (user_entry user_input) s)) as H.
    destruct H as (Hm & Hd & Hc & Hl & Hu & Hg & Hr).
    unfold grows. rewrite Hm, Hd, Hc, Hl, Hu, Hg, Hr. simpl.
    by rewrite !app_nil_r. }
  unfold log_conversation in Huser. simpl in Huser.
  unfold write_error_in, line_in.
  destruct (write_error _ _) eqn:Hwrite; simpl in Huser.
  { exists [], None, []. by split. }
  change (write_log _ _) with (user_state user_input s) in Huser.
  destruct (try_body_summary P (user_state user_input s) Hkeep HP)
    as (replies & more & Hbody & Hlen & Hshape).
  assert (grows s (snd (try_body (user_state user_input s)))
            (user_entry user_input :: map assistant_entry replies)
            (turn_entries user_input replies None) []
            (first_request (messages s ++ [user_entry user_input]) :: more))
    as Hdone.
  { pose proof (grows_trans _ _ _ _ _ _ _ _ _ _ _ Huser Hbody) as H.
    unfold turn_entries. by rewrite app_nil_r. }
  destruct (try_body _) as [[[]|e] s'] eqn:Hrun; simpl in Hdone.
  - exists replies, None, (first_request (messages s ++ [user_entry user_input]) :: more).
    split; [done|]. by exists more.
  - exists replies, (Some e),
      (first_request (messages s ++ [user_entry user_input]) :: more).
    split; [|by exists more].
    pose proof (grows_trans _ _ _ _ _ _ _ _ _ _ _ Hdone
                  (grows_handler e s')) as H.
    unfold turn_entries in *. simpl in H.
    by rewrite !app_nil_r in H.
Qed.

(** ** The two transcripts over a session *)

Lemma session_after_snoc (inputs : list (option pystr))
    (user_input : option pystr) :
  session_after (inputs ++ [user_input])
  = script_run user_input (session_after inputs).
Proof. unfold session_after. by rewrite fold_left_app. Qed.

(** What one run of the script adds to the two transcripts. *)
Lemma script_run_adds (user_input : option pystr) (s : session) :
  exists added,
    Forall user_or_assistant added
    /\ messages (script_run user_input s) = messages s ++ added
    /\ display_messages (script_run user_input s)
       = display_messages s ++ added.
Proof.
  destruct user_input as [[|c u]|]; simpl;
    try (exists []; by rewrite !app_nil_r).
  destruct (turn_summary (fun _ => True) (c :: u) s)
    as (replies & err & sent & (Hm & Hd & _) & _); [done..|].
  exists (user_entry (c :: u) :: map assistant_entry replies).
  split; [|done]. constructor.
  - exists (c :: u). by left.
  - apply Forall_map, Forall_true. intros reply. exists reply. by right.
Qed.

(** C10: whatever the inputs and the answers of the service, every entry
    of the display transcript is a user entry or an assistant entry: it
    starts empty and only user inputs and replies are appended, so no
    system, tool or error entry is ever in it. *)
Theorem display_roles (inputs : list (option pystr)) :
  display_messages (session_after []) = []
  /\ Forall (fun m => exists text,
               m = Dict (str "user") text \/ m = Dict (str "assistant") text)
            (display_messages (session_after inputs)).
Proof.
  split; [done|].
  induction inputs as [|user_input inputs IH] using rev_ind; [done|].
  rewrite session_after_snoc.
  destruct (script_run_adds user_input (session_after inputs))
    as (added & Hadded & _ & ->).
  by apply Forall_app.
Qed.

(** C5, as amended: between any two runs of the script the transcript is
    its three seeded entries followed by exactly the entries of the display
    transcript; every entry added to one is added to the other, and what
    the transcript has in addition is the seed: the system directive and
    the example user/assistant pair. *)
Theorem transcript_is_seed_and_display (inputs : list (option pystr)) :
  messages (session_after inputs)
  = [ Dict (str "system")
           (str "You are a polite, accurate customer support assistant.");
      Dict (str "user") (str "How can I reset my password?");
      Dict (str "assistant")
           (str "You can reset it under Account Settings "
            ++ [rightwards_arrow] ++ str " Security.") ]
    ++ display_messages (session_after inputs).
Proof.
  induction inputs as [|user_input inputs IH] using rev_ind; [done|].
  rewrite session_after_snoc.
  destruct (script_run_adds user_input (session_after inputs))
    as (added & _ & -> & ->).
  by rewrite IH, <- app_assoc.
Qed.

(** ** Tool calls *)

(** C7, as amended: the names resolved are the two names of the tool
    catalog.  When the argument text decodes, an unknown name gives
    "Tool not implemented."; when it decodes to an object that lacks the
    expected key, the tool is called on the empty string.  In both cases no
    exception is raised, and the follow-up request carrying the result is
    sent. *)
Theorem tool_resolution (tc : tool_call) (func_args : pyval)
    (Hdecoded : function_arguments tc = Return func_args) :
  map tool_name tools = [str "lookup_faq"; str "get_order_status"]
  /\ (function_name tc <> str "lookup_faq" ->
      function_name tc <> str "get_order_status" ->
      execute_tool tc = Return (str "Tool not implemented."))
  /\ (forall d, func_args = PyDict d ->
        function_name tc = str "lookup_faq" ->
        (d !! str "query" = None -> execute_tool tc = Return (lookup_faq []))
        /\ (forall q, d !! str "query" = Some (PyStr q) ->
              execute_tool tc = Return (lookup_faq q)))
  /\ (forall d, func_args = PyDict d ->
        function_name tc = str "get_order_status" ->
        (d !! str "order_id" = None ->
         execute_tool tc = Return (get_order_status []))
        /\ (forall i, d !! str "order_id" = Some (PyStr i) ->
              execute_tool tc = Return (get_order_status i)))
  /\ (forall message s result,
        execute_tool tc = Return result ->
        requests (snd (handle_tool_call message tc s))
        = requests s ++ [follow_up_request (messages s) message tc result]).
Proof.
  split; [done|]. split; [|split; [|split]].
  - intros Hfaq Horder. unfold execute_tool.
    by rewrite Hdecoded, !decide_False.
  - intros d -> Hname. unfold execute_tool.
    rewrite Hdecoded, Hname, decide_True by done. simpl.
    split; [by intros -> | by intros q ->].
  - intros d -> Hname. unfold execute_tool.
    rewrite Hdecoded, Hname, decide_False, decide_True by done. simpl.
    split; [by intros -> | by intros i ->].
  - intros message s result Htool.
    rewrite handle_tool_call_unfold, Htool. cbv zeta.
    destruct (service _ _) as [c|e]; [|done].
    destruct (choices c); [done|].
    rewrite append_reply_unfold. by destruct (write_error_in _ _ _).
Qed.

(** The requests sent are kept by the handler and by the rest of the
    loop. *)
Lemma on_exception_requests (e : exn) (s : session) :
  requests (snd (on_exception e s)) = requests s.
Proof.
  destruct (grows_handler e s) as (_ & _ & _ & _ & _ & _ & ->).
  by rewrite app_nil_r.
Qed.

Lemma for_each_requests (message : chat_message) (tcs : list tool_call)
    (s : session) :
  exists more,
    requests (snd (for_each (handle_tool_call message) tcs s))
    = requests s ++ more.
Proof.
  destruct (for_each_summary (fun _ => True) message tcs s)
    as (replies & sent & (_ & _ & _ & _ & _ & _ & Hr) & _); [done..|].
  by exists sent.
Qed.

Lemma follow_up_requests_length (transcript : list message)
    (message : chat_message) (steps : list tool_step) :
  length (follow_up_requests transcript message steps) = length steps.
Proof.
  revert transcript.
  induction steps as [|step steps IH]; intros transcript; simpl;
    [done | by rewrite IH].
Qed.

(** A turn whose user line is written and whose first response carries
    tool calls, seen from the state [s] in which the calls [handled] have
    been answered: the turn goes on with the loop over the other calls,
    and with the handler on what the loop raises. *)
Lemma turn_after_handled (user_input : pystr) (s0 s : session)
    (message : chat_message) (others : list chat_message)
    (handled : list tool_call) (tc : tool_call) (rest : list tool_call) :
  write_error_in s0 (str "user") user_input = None ->
  service (length (requests s0))
          (first_request (messages s0 ++ [user_entry user_input]))
  = Return {| choices := message :: others |} ->
  tool_calls message = Some (handled ++ tc :: rest) ->
  for_each (handle_tool_call message) handled
    (record_request (first_request (messages s0 ++ [user_entry user_input]))
                    (user_state user_input s0))
  = (Return tt, s) ->
  chat_turn user_input s0
  = match for_each (handle_tool_call message) (tc :: rest) s with
    | (Return _, s') => (Return tt, s')
    | (Raise e, s') => on_exception e s'
    end.
Proof.
  intros Hwrite Hservice Htools Hloop.
  rewrite chat_turn_unfold, Hwrite, try_body_unfold. cbv zeta.
  change (requests (user_state user_input s0)) with (requests s0).
  change (messages (user_state user_input s0))
    with (messages s0 ++ [user_entry user_input]).
  rewrite Hservice. simpl choices. cbv iota. rewrite Htools.
  assert (exists tc0 rest0, handled ++ tc :: rest = tc0 :: rest0)
    as (tc0 & rest0 & Hcons).
  { destruct handled as [|tc0 handled]; by eexists _, _. }
  rewrite Hcons. cbv iota. rewrite <- Hcons.
  by rewrite (for_each_app _ _ _ _ _ Hloop).
Qed.

(** C8, as amended: when the tool of a call gave [result], the follow-up
    request is made of the session transcript as it stands when the call is
    handled, the message of the first response and one tool entry with the
    id of the call and the result; its model is "gpt-5" and it has no tool
    catalog, whereas the first request has one.  When it is answered, the
    reply added to both transcripts is the text of the answer, or [result]
    when that text is empty or absent, and the call ends without an
    exception when the line of the reply is written to the log.  In a turn,
    the transcript of the moment is the one sent in the first request
    followed by one assistant reply per call handled before this one: for
    the first call it is the transcript of the first request. *)
Theorem follow_up_completion (message : chat_message) (tc : tool_call)
    (s : session) (result : pystr)
    (Htool : execute_tool tc = Return result) :
  requests (snd (handle_tool_call message tc s))
  = requests s
    ++ [ {| req_model := str "gpt-5";
            req_messages :=
              messages s ++ [ModelMessage message; ToolDict (tc_id tc) result];
            req_tools := None |} ]
  /\ (forall final others,
        service (length (requests s))
          {| req_model := str "gpt-5";
             req_messages :=
               messages s
               ++ [ModelMessage message; ToolDict (tc_id tc) result];
             req_tools := None |}
        = Return {| choices := final :: others |} ->
        exists reply,
          fst (handle_tool_call message tc s)
          = match write_error_in s (str "assistant") reply with
            | None => Return tt
            | Some e => Raise e
            end
          /\ messages (snd (handle_tool_call message tc s))
             = messages s ++ [Dict (str "assistant") reply]
          /\ display_messages (snd (handle_tool_call message tc s))
             = display_messages s ++ [Dict (str "assistant") reply]
          /\ (forall c text, content final = Some (c :: text) ->
                reply = c :: text)
          /\ (content final = None \/ content final = Some [] ->
              reply = result))
  /\ (forall user_input s0 others handled rest,
        write_error_in s0 (str "user") user_input = None ->
        service (length (requests s0))
                (first_request (messages s0 ++ [user_entry user_input]))
        = Return {| choices := message :: others |} ->
        tool_calls message = Some (handled ++ tc :: rest) ->
        for_each (handle_tool_call message) handled
          (record_request
             (first_request (messages s0 ++ [user_entry user_input]))
             (user_state user_input s0))
        = (Return tt, s) ->
        req_tools (first_request (messages s0 ++ [user_entry user_input]))
        = Some tools
        /\ exists replies earlier more,
             length replies = length handled
             /\ length earlier = length handled
             /\ messages s
                = req_messages
                    (first_request (messages s0 ++ [user_entry user_input]))
                  ++ map assistant_entry replies
             /\ requests (turn user_input s0)
                = requests s0
                  ++ first_request (messages s0 ++ [user_entry user_input])
                  :: earlier
                  ++ {| req_model := str "gpt-5";
                        req_messages :=
                          req_messages
                            (first_request
                               (messages s0 ++ [user_entry user_input]))
                          ++ map assistant_entry replies
                          ++ [ModelMessage message;
                              ToolDict (tc_id tc) result];
                        req_tools := None |}
                  :: more).
Proof.
  assert (requests (snd (handle_tool_call message tc s))
          = requests s ++ [follow_up_request (messages s) message tc result])
    as Hsent.
  { rewrite handle_tool_call_unfold, Htool. cbv zeta.
    destruct (service _ _) as [c|e]; [|done].
    destruct (choices c); [done|].
    rewrite append_reply_unfold. by destruct (write_error_in _ _ _). }
  split; [exact Hsent|]. split.
  - intros final others Hservice.
    rewrite handle_tool_call_unfold, Htool. cbv zeta.
    change (follow_up_request (messages s) message tc result)
      with {| req_model := str "gpt-5";
              req_messages :=
                messages s
                ++ [ModelMessage message; ToolDict (tc_id tc) result];
              req_tools := None |}.
    rewrite Hservice. simpl choices. cbv iota.
    rewrite append_reply_unfold.
    exists (py_or (content final) result).
    set (s1 := record_request _ s).
    change (write_error_in s1 (str "assistant")
              (py_or (content final) result))
      with (write_error_in s (str "assistant")
              (py_or (content final) result)).
    destruct (write_error_in s _ _); simpl; repeat split;
      try (by intros c text ->); by intros [-> | ->].
  - intros user_input s0 others handled rest Hwrite Hservice Htools Hloop.
    split; [done|].
    unfold turn.
    rewrite (turn_after_handled _ _ _ _ _ _ _ _ Hwrite Hservice Htools Hloop).
    apply for_each_return in Hloop
      as (steps & Hcalls & _ & Hm & _ & _ & _ & _ & _ & Hr).
    simpl in Hm, Hr.
    assert (length steps = length handled) as Hlen.
    { by rewrite <- Hcalls, length_map. }
    exists (map step_reply steps),
      (follow_up_requests (messages s0 ++ [user_entry user_input]) message
         steps).
    assert (length (follow_up_requests
                      (messages s0 ++ [user_entry user_input]) message steps)
            = length steps) as Hlen'.
    { apply follow_up_requests_length. }
    assert (exists more,
              requests
                (snd (for_each (handle_tool_call message) (tc :: rest) s))
              = requests (snd (handle_tool_call message tc s)) ++ more)
      as [more Hmore].
    { rewrite for_each_cons.
      destruct (handle_tool_call message tc s) as [[[]|e] s1];
        [apply for_each_requests|]. exists []. simpl. by rewrite app_nil_r. }
    exists more. rewrite length_map.
    split; [done|]. split; [by rewrite Hlen'|]. split; [exact Hm|].
    assert (requests
              (snd (for_each (handle_tool_call message) (tc :: rest) s))
            = requests s0
              ++ first_request (messages s0 ++ [user_entry user_input])
              :: follow_up_requests
                   (messages s0 ++ [user_entry user_input]) message steps
              ++ follow_up_request (messages s) message tc result :: more)
      as Hall.
    { rewrite Hmore, Hsent, Hr, <- !app_assoc. by simpl. }
    unfold follow_up_request in Hall. rewrite Hm in Hall. simpl in Hall.
    rewrite <- app_assoc in Hall.
    destruct (for_each _ (tc :: rest) s) as [[[]|e] s1]; simpl in Hall |- *;
      [|rewrite on_exception_requests]; exact Hall.
Qed.

(** ** Turns *)

(** A turn whose user line is written and whose first response asks for no
    tool: the reply is appended, and the handler runs when the line of the
    reply cannot be written. *)
Lemma chat_turn_text_reply (user_input : pystr) (s : session)
    (message : chat_message) (others : list chat_message) :
  write_error_in s (str "user") user_input = None ->
  service (length (requests s))
          (first_request (messages s ++ [user_entry user_input]))
  = Return {| choices := message :: others |} ->
  tool_calls message = None \/ tool_calls message = Some [] ->
  chat_turn user_input s
  = let reply := py_or (content message) no_response in
    let s2 := record_request
                (first_request (messages s ++ [user_entry user_input]))
                (user_state user_input s) in
    match write_error_in s2 (str "assistant") reply with
    | None => (Return tt, reply_state reply s2)
    | Some e => on_exception e (fail_log (with_entry (assistant_entry reply) s2))
    end.
Proof.
  intros Hwrite Hservice Htools.
  rewrite chat_turn_unfold, Hwrite, try_body_unfold. cbv zeta.
  change (requests (user_state user_input s)) with (requests s).
  change (messages (user_state user_input s))
    with (messages s ++ [user_entry user_input]).
  rewrite Hservice. simpl choices. cbv iota.
  assert (match tool_calls message with
          | Some (tc :: rest) =>
              for_each (handle_tool_call message) (tc :: rest)
                (record_request
                   (first_request (messages s ++ [user_entry user_input]))
                   (user_state user_input s))
          | _ =>
              append_reply (py_or (content message) no_response)
                (record_request
                   (first_request (messages s ++ [user_entry user_input]))
                   (user_state user_input s))
          end
          = append_reply (py_or (content message) no_response)
              (record_request
                 (first_request (messages s ++ [user_entry user_input]))
                 (user_state user_input s))) as ->.
  { by destruct Htools as [-> | ->]. }
  rewrite append_reply_unfold.
  by destruct (write_error_in (record_request _ _) _ _).
Qed.

(** C3, as amended: in a turn whose first response carries N >= 1 tool
    calls and which ends without an exception (none is handled and none
    leaves the script), the calls are handled one after the other in the
    order received; each has its own follow-up request, built on the
    transcript of that moment and ending with the message of the first
    response and one tool entry; each adds its own assistant entry to both
    transcripts, N in all.  The tool entries are in the follow-up requests
    only: the transcript gets the assistant entries and nothing else. *)
Theorem tool_turn_appends (user_input : pystr) (s : session)
    (message : chat_message) (others : list chat_message)
    (tcs : list tool_call)
    (Hservice :
       service (length (requests s))
               (first_request (messages s ++ [user_entry user_input]))
       = Return {| choices := message :: others |})
    (Htools : tool_calls message = Some tcs)
    (Hsome : 1 <= length tcs)
    (Hended : ui_errors (turn user_input s) = ui_errors s)
    (Hreturned : fst (chat_turn user_input s) = Return tt) :
  exists steps,
    map step_call steps = tcs
    /\ length steps = length tcs
    /\ steps_handled (messages s ++ [user_entry user_input])
                     (S (length (requests s))) message steps
    /\ messages (turn user_input s)
       = messages s
         ++ user_entry user_input
         :: map assistant_entry (map step_reply steps)
    /\ display_messages (turn user_input s)
       = display_messages s
         ++ user_entry user_input
         :: map assistant_entry (map step_reply steps)
    /\ requests (turn user_input s)
       = requests s
         ++ first_request (messages s ++ [user_entry user_input])
         :: follow_up_requests (messages s ++ [user_entry user_input])
              message steps.
Proof.
  revert Hended Hreturned. unfold turn.
  destruct (write_error_in s (str "user") user_input) eqn:Hwrite.
  { rewrite chat_turn_unfold, Hwrite. by intros _. }
  destruct tcs as [|tc rest]; [simpl in Hsome; lia|].
  rewrite (turn_after_handled user_input s _ message others [] tc rest
             Hwrite Hservice Htools eq_refl).
  set (s2 := record_request _ _).
  destruct (for_each_summary (fun _ => True) message (tc :: rest) s2)
    as (replies & sent & (_ & _ & _ & _ & Hu & _) & _); [done..|].
  destruct (for_each _ (tc :: rest) s2) as [[[]|e] s3] eqn:Hloop.
  - intros _ _.
    apply for_each_return in Hloop
      as (steps & Hcalls & Hsteps & Hm & Hd & _ & _ & _ & _ & Hr).
    assert (length steps = length (tc :: rest)) as Hlen.
    { by rewrite <- Hcalls, length_map. }
    exists steps. simpl snd. rewrite Hm, Hd, Hr. subst s2.
    simpl in Hsteps |- *.
    rewrite length_app in Hsteps. simpl in Hsteps.
    rewrite Nat.add_1_r in Hsteps. rewrite <- !app_assoc.
    by repeat split.
  - destruct (grows_handler e s3) as (_ & _ & _ & _ & Hu' & _).
    simpl in Hu. rewrite Hu' , Hu. subst s2. simpl. intros Hended.
    apply (f_equal length) in Hended. rewrite !length_app in Hended.
    simpl in Hended. lia.
Qed.

(** C4, as amended: when the request the script is about to send is
    answered by an exception, the turn ends with both transcripts as they
    were just before that request, the user's message of the turn among
    them, and one error box is shown.  When the line of the error is
    written, the log gets that one line, with role "error", and the turn
    ends normally; when its write raises, the log gets nothing and that
    exception leaves the script.  Either way the session goes on: a next
    input whose lines are written and which is answered with a text is
    handled as usual. *)
Theorem completion_call_raises (user_input : pystr) (s0 s : session)
    (r : request) (e : exn)
    (Hcall : about_to_call user_input s0 s r)
    (Hraise : service (length (requests s)) r = Raise e) :
  display_messages (turn user_input s0) = display_messages s
  /\ messages (turn user_input s0) = messages s
  /\ (exists replies,
        display_messages s
        = display_messages s0
          ++ user_entry user_input :: map assistant_entry replies)
  /\ ui_errors (turn user_input s0)
     = ui_errors s ++ [[cross_mark] ++ str " API Error: " ++ exn_text e]
  /\ match write_error_in s (str "error") (exn_text e) with
     | None =>
         fst (chat_turn user_input s0) = Return tt
         /\ log_file (turn user_input s0)
            = log_file s
              ++ [str "[" ++ strftime (now (log_calls s)) ++ str "] Error: "
                  ++ exn_text e ++ [LF]]
     | Some e' =>
         fst (chat_turn user_input s0) = Raise e'
         /\ log_file (turn user_input s0) = log_file s
     end
  /\ (forall next reply others,
        reply <> [] ->
        write_error_in (turn user_input s0) (str "user") next = None ->
        write_error_in (user_state next (turn user_input s0))
                       (str "assistant") reply = None ->
        service (length (requests (turn user_input s0)))
                (first_request
                   (messages (turn user_input s0) ++ [user_entry next]))
        = Return {| choices :=
                      {| content := Some reply; tool_calls := None |}
                      :: others |} ->
        display_messages (turn next (turn user_input s0))
        = display_messages (turn user_input s0)
          ++ [user_entry next; assistant_entry reply]
        /\ ui_errors (turn next (turn user_input s0))
           = ui_errors (turn user_input s0)).
Proof.
  assert (chat_turn user_input s0 = on_exception e (record_request r s)
          /\ exists replies,
               display_messages s
               = display_messages s0
                 ++ user_entry user_input :: map assistant_entry replies)
    as [Hturn Hshown].
  { destruct Hcall
      as [Hwrite
         |message others handled tc rest result s Hwrite Hfirst Htools Hloop
            Htool].
    - split; [|exists []; by simpl].
      rewrite chat_turn_unfold, Hwrite, try_body_unfold. cbv zeta.
      by rewrite Hraise.
    - split.
      + rewrite (turn_after_handled _ _ _ _ _ _ _ _ Hwrite Hfirst Htools
                   Hloop).
        rewrite for_each_cons, handle_tool_call_unfold, Htool. cbv zeta.
        by rewrite Hraise.
      + apply for_each_return in Hloop as (steps & _ & _ & _ & Hd & _).
        exists (map step_reply steps). rewrite Hd. simpl.
        by rewrite <- app_assoc. }
  unfold turn at 1 2 3 4 5. rewrite Hturn, on_exception_unfold.
  change (write_error_in (record_request r s) (str "error") (exn_text e))
    with (write_error_in s (str "error") (exn_text e)).
  split; [by destruct (write_error_in s _ _)|].
  split; [by destruct (write_error_in s _ _)|].
  split; [exact Hshown|].
  split; [by destruct (write_error_in s _ _)|].
  split; [by destruct (write_error_in s _ _)|].
  intros next reply others Hreply Hnext Hline Hanswer.
  unfold turn at 1 4.
  rewrite (chat_turn_text_reply next _ _ others Hnext Hanswer
             (or_introl eq_refl)).
  cbv zeta.
  destruct reply as [|c reply]; [done|]. simpl py_or.
  change (write_error_in (record_request _ ?s1) ?role ?text)
    with (write_error_in s1 role text).
  rewrite Hline. simpl. by rewrite <- app_assoc.
Qed.

(** ** The conversation log *)

Lemma count_lines_app (a b : pystr) :
  count_lines (a ++ b) = count_lines a + count_lines b.
Proof. unfold count_lines. by rewrite filter_app, length_app. Qed.

Lemma count_lines_one_line (text : pystr) :
  one_line text -> count_lines text = 0.
Proof.
  unfold one_line, count_lines. induction text as [|c text IH]; [done|].
  rewrite not_elem_of_cons, filter_cons. intros [Hc Htext].
  rewrite decide_False by done. by apply IH.
Qed.

Lemma digit_is_digit (n : N) : is_digit (digit n).
Proof.
  unfold is_digit, digit.
  assert (n mod 10 < 10)%N as Hlt by (by apply N.mod_lt).
  revert Hlt. generalize (n mod 10)%N. lia.
Qed.

Lemma digit_not_LF (n : N) : digit n <> LF.
Proof. unfold digit, LF. generalize (n mod 10)%N. lia. Qed.

Lemma strftime_fits (t : datetime) :
  fits (str "YYYY-MM-DD HH:MM:SS") (strftime t).
Proof.
  unfold fits, strftime, dec4, dec2. cbn.
  repeat (constructor; [first [apply digit_is_digit | reflexivity]|]).
  constructor.
Qed.

Lemma strftime_one_line (t : datetime) : one_line (strftime t).
Proof.
  unfold one_line, strftime, dec4, dec2. cbn.
  rewrite !not_elem_of_cons.
  repeat (split; [first [apply not_eq_sym, digit_not_LF | done]|]).
  apply not_elem_of_nil.
Qed.

Lemma log_line_count (ts : datetime) (role content : pystr) :
  one_line (capitalize role) -> one_line content ->
  count_lines (log_line ts role content) = 1.
Proof.
  intros Hrole Hcontent. unfold log_line. rewrite !count_lines_app.
  rewrite (count_lines_one_line (strftime ts)) by apply strftime_one_line.
  by rewrite (count_lines_one_line (capitalize role)),
    (count_lines_one_line content).
Qed.

Lemma log_lines_count (n : nat) (entries : list (pystr * pystr)) :
  Forall (fun entry => one_line (capitalize entry.1) /\ one_line entry.2)
         entries ->
  count_lines (concat (log_lines n entries)) = length entries.
Proof.
  revert n. induction entries as [|[role content] entries IH]; intros n Hall;
    [done|].
  apply Forall_cons in Hall as [[Hrole Hcontent] Hall].
  change (log_lines n ((role, content) :: entries))
    with (log_line (now n) role content :: log_lines (S n) entries).
  change (concat (?x :: ?l)) with (x ++ concat l).
  by rewrite count_lines_app, log_line_count, IH.
Qed.

Lemma role_one_line (role : pystr) :
  role ∈ [str "user"; str "assistant"; str "error"] ->
  one_line (capitalize role).
Proof.
  rewrite !elem_of_cons, elem_of_nil.
  intros [-> | [-> | [-> | []]]];
    apply (bool_decide_unpack _); by vm_compute.
Qed.

(** C6, as amended: a turn calls [log_conversation] 1 + (number of
    replies) + (1 if the handler ran) times, in that order; a call whose
    write succeeds appends one record of the form
    "[<YYYY-MM-DD HH:MM:SS>] <Role>: <content>" followed by a line feed,
    with Role one of User, Assistant, Error, and a call whose write raises
    appends nothing.  When every write of the turn succeeds, the log grows
    by that number of records, and by that number of lines when the user's
    message, the replies and the error text have no line feed in them; when
    some write raises, it grows by fewer records. *)
Theorem log_records_per_turn (user_input : pystr) (s : session) :
  (exists replies err,
     display_messages (turn user_input s)
     = display_messages s
       ++ user_entry user_input :: map assistant_entry replies
     /\ ui_errors (turn user_input s)
        = ui_errors s
          ++ match err with Some e => [api_error_text e] | None => [] end
     /\ log_calls (turn user_input s)
        = log_calls s + 1 + length replies
          + match err with Some _ => 1 | None => 0 end
     /\ log_file (turn user_input s)
        = log_file s
          ++ written_lines (log_calls s)
               ((str "user", user_input)
                :: map (fun reply => (str "assistant", reply)) replies
                ++ match err with
                   | Some e => [(str "error", exn_text e)]
                   | None => []
                   end)
     /\ (writes_succeed (log_calls s)
           ((str "user", user_input)
            :: map (fun reply => (str "assistant", reply)) replies
            ++ match err with
               | Some e => [(str "error", exn_text e)]
               | None => []
               end) ->
         log_file (turn user_input s)
         = log_file s
           ++ log_lines (log_calls s)
                ((str "user", user_input)
                 :: map (fun reply => (str "assistant", reply)) replies
                 ++ match err with
                    | Some e => [(str "error", exn_text e)]
                    | None => []
                    end)
         /\ length (log_file (turn user_input s))
            = length (log_file s) + 1 + length replies
              + match err with Some _ => 1 | None => 0 end
         /\ (one_line user_input -> Forall one_line replies ->
             (forall e, err = Some e -> one_line (exn_text e)) ->
             count_lines (log_text (turn user_input s))
             = count_lines (log_text s) + 1 + length replies
               + match err with Some _ => 1 | None => 0 end))
     /\ (~ writes_succeed (log_calls s)
             ((str "user", user_input)
              :: map (fun reply => (str "assistant", reply)) replies
              ++ match err with
                 | Some e => [(str "error", exn_text e)]
                 | None => []
                 end) ->
         length (log_file (turn user_input s))
         < length (log_file s) + 1 + length replies
           + match err with Some _ => 1 | None => 0 end))
  /\ (forall ts content,
        fits (str "YYYY-MM-DD HH:MM:SS") (strftime ts)
        /\ log_line ts (str "user") content
           = str "[" ++ strftime ts ++ str "] User: " ++ content ++ [LF]
        /\ log_line ts (str "assistant") content
           = str "[" ++ strftime ts ++ str "] Assistant: " ++ content ++ [LF]
        /\ log_line ts (str "error") content
           = str "[" ++ strftime ts ++ str "] Error: " ++ content ++ [LF]).
Proof.
  split; [|intros ts content; split; [apply strftime_fits | done]].
  destruct (turn_summary (fun _ => True) user_input s)
    as (replies & err & sent & (_ & Hd & Hc & Hl & Hu & _) & _); [done..|].
  exists replies, err. unfold log_text.
  change ((str "user", user_input)
          :: map (fun reply => (str "assistant", reply)) replies
          ++ match err with
             | Some e => [(str "error", exn_text e)]
             | None => []
             end)
    with (turn_entries user_input replies err).
  assert (length (turn_entries user_input replies err)
          = 1 + length replies + match err with Some _ => 1 | None => 0 end)
    as Hlen.
  { unfold turn_entries. simpl. rewrite length_app, length_map.
    destruct err; simpl; lia. }
  rewrite Hd, Hu, Hl, Hc, Hlen.
  split; [done|]. split; [by destruct err|]. split; [lia|].
  split; [done|]. split.
  - intros Hok. rewrite (written_lines_succeed _ _ Hok).
    split; [done|]. split.
    + rewrite length_app, log_lines_length, Hlen. lia.
    + intros Huser Hreplies Herr.
      rewrite concat_app, count_lines_app, log_lines_count, Hlen; [lia|].
      unfold turn_entries. constructor; [|apply Forall_app; split].
      * split; [|done]. apply role_one_line.
        repeat first [apply list_elem_of_here | apply list_elem_of_further].
      * apply Forall_map. eapply Forall_impl; [exact Hreplies|].
        intros reply Hreply. split; [|done]. apply role_one_line.
        repeat first [apply list_elem_of_here | apply list_elem_of_further].
      * destruct err as [e|]; [|done]. constructor; [|done].
        split; [|by apply Herr]. apply role_one_line.
        repeat first [apply list_elem_of_here | apply list_elem_of_further].
  - intros Hnot. apply written_lines_fewer in Hnot.
    rewrite length_app. rewrite Hlen in Hnot. lia.
Qed.

(** ** More on the knowledge store *)

Lemma answers_are_not_the_sentinel :
  Forall (fun faq => answer faq <> faq_not_found) faq_data.
Proof. repeat constructor; by vm_compute. Qed.

Lemma lookup_faq_in_not_found (data : list faq_entry) (q : pystr) :
  Forall (fun faq => answer faq <> faq_not_found) data ->
  lookup_faq_in data q = faq_not_found
  <-> Forall (fun faq => ~ qualifies q faq) data.
Proof.
  intros Hanswers. split.
  - intros Heq.
    destruct (lookup_faq_in_spec data q)
      as [(faq & (before & after & -> & _) & Hfound) | [Hnone _]]; [|done].
    apply Forall_app in Hanswers as [_ Hanswers].
    apply Forall_cons in Hanswers as [Hanswer _].
    by rewrite Heq in Hfound.
  - intros Hnone.
    destruct (lookup_faq_in_spec data q)
      as [(faq & Hfirst & _) | [_ Heq]]; [|done].
    by apply first_with_not_none in Hfirst.
Qed.

Lemma contains_ci_trans (q q' field : pystr) :
  contains_ci q q' -> contains_ci q' field -> contains_ci q field.
Proof.
  intros (b1 & a1 & H1) (b2 & a2 & H2). exists (b2 ++ b1), (a1 ++ a2).
  by rewrite H2, H1, <- !app_assoc.
Qed.

(** X1: the not-found sentence is never an answer of the table, so
    [lookup_faq] returns it exactly when no entry qualifies for the
    query. *)
Theorem lookup_faq_not_found_iff (q : pystr) :
  lookup_faq q = str "Sorry, I couldn't find that information."
  <-> Forall (fun faq => ~ qualifies q faq) faq_data.
Proof. apply lookup_faq_in_not_found, answers_are_not_the_sentinel. Qed.

(** X2: a query found stays found when it is shortened: if [q'] contains
    [q] case-insensitively and [lookup_faq q'] finds an entry, so does
    [lookup_faq q]. *)
Theorem shorter_query_is_found (q q' : pystr) :
  contains_ci q q' ->
  lookup_faq q' <> faq_not_found ->
  lookup_faq q <> faq_not_found.
Proof.
  intros Hshort Hfound Hnot. apply Hfound.
  apply (lookup_faq_in_not_found _ _ answers_are_not_the_sentinel).
  apply (lookup_faq_in_not_found _ _ answers_are_not_the_sentinel) in Hnot.
  eapply Forall_impl; [exact Hnot|].
  intros faq Hnone [Hq | Ha]; apply Hnone; [left | right];
    by eapply contains_ci_trans.
Qed.

Lemma lookup_faq_in_lower (data : list faq_entry) (q q' : pystr) :
  lower q = lower q' -> lookup_faq_in data q = lookup_faq_in data q'.
Proof.
  intros Heq. induction data as [|faq data IH]; [done|]. simpl.
  unfold faq_matches. by rewrite Heq, IH.
Qed.

(** X3: [lookup_faq] does not see the case of the query: two queries with
    the same [lower] get the same result. *)
Theorem lookup_faq_ignores_case (q q' : pystr) :
  lower q = lower q' -> lookup_faq q = lookup_faq q'.
Proof. apply lookup_faq_in_lower. Qed.

Lemma get_order_status_in_lower (data : list order_record) (i i' : pystr) :
  lower i = lower i' ->
  (get_order_status_in data i = order_not_found i
   /\ get_order_status_in data i' = order_not_found i')
  \/ (exists order,
        first_with (same_id i) data order
        /\ get_order_status_in data i = order_status_text i order
        /\ get_order_status_in data i' = order_status_text i' order).
Proof.
  intros Heq. induction data as [|order data IH]; [by left|]. simpl.
  assert (order_matches i' order = order_matches i order) as ->.
  { unfold order_matches. by rewrite Heq. }
  destruct (order_matches i order) eqn:Hm.
  - right. exists order. split; [|done].
    exists [], data. repeat split; [|done]. by apply order_matches_spec.
  - assert (~ same_id i order) as Hn.
    { rewrite <- order_matches_spec. by rewrite Hm. }
    destruct IH as [IH | (o & (before & after & -> & Ho & Hb) & IH)].
    + by left.
    + right. exists o. split; [|done].
      exists (order :: before), after. repeat split; [done|].
      by constructor.
Qed.

(** X4: the case of the id only shows in the echo: two ids with the same
    [lower] are both unknown, or both get the sentence of the same record,
    each with the id as it was given. *)
Theorem get_order_status_ignores_case (i i' : pystr) :
  lower i = lower i' ->
  (get_order_status i = str "Order ID " ++ i ++ str " not found."
   /\ get_order_status i' = str "Order ID " ++ i' ++ str " not found.")
  \/ (exists order,
        first_with (same_id i) order_data order
        /\ get_order_status i
           = str "Order " ++ i ++ str " is " ++ status order
             ++ str " and will arrive by " ++ eta order ++ str "."
        /\ get_order_status i'
           = str "Order " ++ i' ++ str " is " ++ status order
             ++ str " and will arrive by " ++ eta order ++ str ".").
Proof. apply get_order_status_in_lower. Qed.

(** ** More on the tool dispatch *)

(** X5: for the two known tools the decoded arguments must be an object,
    and what is under the expected key must be a string: otherwise
    [execute_tool] raises [AttributeError], for the missing [get] or the
    missing [lower].  A call whose tool raised sends no request and leaves
    the session as it was. *)
Theorem argument_type_errors (tc : tool_call) (v : pyval)
    (Hdecoded : function_arguments tc = Return v)
    (Hknown : function_name tc = str "lookup_faq"
              \/ function_name tc = str "get_order_status") :
  ((forall d, v <> PyDict d) ->
   execute_tool tc = Raise (AttributeError (type_name v) (str "get")))
  /\ (forall d x,
        v = PyDict d ->
        d !! (if decide (function_name tc = str "lookup_faq")
              then str "query" else str "order_id") = Some x ->
        (forall text, x <> PyStr text) ->
        execute_tool tc = Raise (AttributeError (type_name x) (str "lower")))
  /\ (forall e message s,
        execute_tool tc = Raise e ->
        handle_tool_call message tc s = (Raise e, s)).
Proof.
  split; [|split].
  - intros Hnodict. unfold execute_tool. rewrite Hdecoded.
    destruct Hknown as [Hname | Hname]; rewrite Hname.
    + rewrite decide_True by done. by destruct v; try done; edestruct Hnodict.
    + rewrite decide_False, decide_True by done.
      by destruct v; try done; edestruct Hnodict.
  - intros d x -> Hkey Hnostr. unfold execute_tool. rewrite Hdecoded.
    destruct (decide (function_name tc = str "lookup_faq")) as [Hfaq | Hfaq].
    + simpl. rewrite Hkey. simpl.
      by destruct x; try done; edestruct Hnostr.
    + destruct Hknown as [Hname | Hname]; [done|].
      rewrite decide_True by done. simpl. rewrite Hkey. simpl.
      by destruct x; try done; edestruct Hnostr.
  - intros e message s Hraise. by rewrite handle_tool_call_unfold, Hraise.
Qed.

(** X6: a call that follows the schema of a descriptor of the catalog is
    never refused: the one required parameter of the descriptor is the key
    the dispatch reads, and the result is the tool's answer to its
    value. *)
Theorem schema_calls_succeed (tc : tool_call) (descriptor : tool_descriptor)
    (Hcatalog : descriptor ∈ tools)
    (Hschema : follows_schema tc descriptor) :
  exists d key text,
    tool_required descriptor = [key]
    /\ function_arguments tc = Return (PyDict d)
    /\ d !! key = Some (PyStr text)
    /\ execute_tool tc
       = Return (if decide (tool_name descriptor = str "lookup_faq")
                 then lookup_faq text else get_order_status text).
Proof.
  destruct Hschema as (Hname & d & Hargs & Hrequired).
  unfold tools in Hcatalog.
  rewrite !elem_of_cons, elem_of_nil in Hcatalog.
  destruct Hcatalog as [-> | [-> | []]]; simpl in Hname, Hrequired |- *;
    apply Forall_cons in Hrequired as [[text Hkey] _];
    eexists d, _, text; (do 3 (split; [done|]));
    unfold execute_tool; rewrite Hargs, Hname.
  - rewrite !decide_True by done. simpl. by rewrite Hkey.
  - rewrite !decide_False, decide_True by done. simpl. by rewrite Hkey.
Qed.

(** ** More on the turns *)

(** The [try] body shows no error box and records no exception. *)
Lemma try_body_no_box (s : session) :
  ui_errors (snd (try_body s)) = ui_errors s
  /\ debug_log (snd (try_body s)) = debug_log s.
Proof.
  destruct (try_body_summary (fun _ => True) s)
    as (replies & more & (_ & _ & _ & _ & -> & -> & _) & _); [done..|].
  simpl. by rewrite !app_nil_r.
Qed.

(** X7: every exception raised in the [try] body is taken by the [except]
    block: the error box with its text is shown, [logger.exception]
    records it, and [log_conversation] is called on it.  A turn whose
    [try] body raises nothing shows no box.  An exception leaves the chat
    section only from a write to the log outside the [try] body: the write
    of the user's line (line 134), or the write of the error line in the
    handler (line 189). *)
Theorem exceptions_of_a_turn (user_input : pystr) (s : session) :
  (forall e,
     write_error_in s (str "user") user_input = None ->
     fst (try_body (user_state user_input s)) = Raise e ->
     ui_errors (turn user_input s)
     = ui_errors s ++ [[cross_mark] ++ str " API Error: " ++ exn_text e]
     /\ debug_log (turn user_input s) = debug_log s ++ [e]
     /\ match write_error_in (snd (try_body (user_state user_input s)))
                             (str "error") (exn_text e) with
        | None =>
            fst (chat_turn user_input s) = Return tt
            /\ log_file (turn user_input s)
               = log_file (snd (try_body (user_state user_input s)))
                 ++ [line_in (snd (try_body (user_state user_input s)))
                             (str "error") (exn_text e)]
        | Some e' =>
            fst (chat_turn user_input s) = Raise e'
            /\ log_file (turn user_input s)
               = log_file (snd (try_body (user_state user_input s)))
        end)
  /\ (write_error_in s (str "user") user_input = None ->
      fst (try_body (user_state user_input s)) = Return tt ->
      chat_turn user_input s
      = (Return tt, snd (try_body (user_state user_input s)))
      /\ ui_errors (turn user_input s) = ui_errors s
      /\ debug_log (turn user_input s) = debug_log s)
  /\ (forall e',
        fst (chat_turn user_input s) = Raise e' ->
        (write_error_in s (str "user") user_input = Some e'
         /\ turn user_input s
            = fail_log (with_entry (user_entry user_input) s))
        \/ exists e,
             write_error_in s (str "user") user_input = None
             /\ fst (try_body (user_state user_input s)) = Raise e
             /\ write_error_in (snd (try_body (user_state user_input s)))
                               (str "error") (exn_text e)
                = Some e').
Proof.
  unfold turn. rewrite chat_turn_unfold.
  destruct (try_body_no_box (user_state user_input s)) as [Hu Hg].
  simpl in Hu, Hg.
  destruct (write_error_in s (str "user") user_input) as [e0|] eqn:Hwrite.
  { split; [done|]. split; [done|]. intros e' He'. left.
    simpl in He'. by injection He' as ->. }
  destruct (try_body (user_state user_input s)) as [[[]|e] s'] eqn:Hbody;
    simpl in Hu, Hg |- *.
  - split; [done|]. split; [done|]. by intros e' He'.
  - rewrite on_exception_unfold. split; [|split; [done|]].
    + intros e1 _ [= <-].
      destruct (write_error_in s' (str "error") (exn_text e)); simpl;
        by rewrite Hu, Hg.
    + intros e' He'. right. exists e. do 2 (split; [done|]).
      destruct (write_error_in s' (str "error") (exn_text e)); simpl in He';
        [by injection He' as -> | done].
Qed.

(** X8: a turn whose user line is written and whose first response asks
    for no tool (no list, or an empty one) sends that one request, with
    the tool catalog, and adds the user's entry and exactly one assistant
    entry to both transcripts; the reply is the text of the response, or
    "No response." when that text is empty or absent.  When the line of
    the reply is written, the log has two more records, no error is shown
    and the turn ends normally; when its write raises, the log has the
    user's record only and the handler runs on that exception. *)
Theorem plain_turn (user_input : pystr) (s : session)
    (message : chat_message) (others : list chat_message)
    (Hwritten : write_error_in s (str "user") user_input = None)
    (Hservice :
       service (length (requests s))
               (first_request (messages s ++ [user_entry user_input]))
       = Return {| choices := message :: others |})
    (Hplain : tool_calls message = None \/ tool_calls message = Some []) :
  exists reply,
    (forall c text, content message = Some (c :: text) -> reply = c :: text)
    /\ (content message = None \/ content message = Some [] ->
        reply = str "No response.")
    /\ messages (turn user_input s)
       = messages s ++ [user_entry user_input; assistant_entry reply]
    /\ display_messages (turn user_input s)
       = display_messages s ++ [user_entry user_input; assistant_entry reply]
    /\ requests (turn user_input s)
       = requests s
         ++ [ {| req_model := str "gpt-5";
                 req_messages := messages s ++ [user_entry user_input];
                 req_tools := Some tools |} ]
    /\ match write_error (S (log_calls s))
               (log_line (now (S (log_calls s))) (str "assistant") reply) with
       | None =>
           fst (chat_turn user_input s) = Return tt
           /\ log_file (turn user_input s)
              = log_file s
                ++ [log_line (now (log_calls s)) (str "user") user_input;
                    log_line (now (S (log_calls s))) (str "assistant")
                             reply]
           /\ ui_errors (turn user_input s) = ui_errors s
       | Some e =>
           ui_errors (turn user_input s)
           = ui_errors s
             ++ [[cross_mark] ++ str " API Error: " ++ exn_text e]
           /\ debug_log (turn user_input s) = debug_log s ++ [e]
           /\ log_file (turn user_input s)
              = log_file s
                ++ log_line (now (log_calls s)) (str "user") user_input
                :: written_lines (S (S (log_calls s)))
                     [(str "error", exn_text e)]
       end.
Proof.
  unfold turn. rewrite (chat_turn_text_reply _ _ _ _ Hwritten Hservice Hplain).
  cbv zeta. exists (py_or (content message) no_response).
  split; [by intros c text ->|]. split; [by intros [-> | ->]|].
  set (reply := py_or (content message) no_response).
  set (s2 := record_request _ _).
  change (write_error_in s2 (str "assistant") reply)
    with (write_error (S (log_calls s))
            (log_line (now (S (log_calls s))) (str "assistant") reply)).
  destruct (write_error (S (log_calls s)) _) as [e|].
  - rewrite on_exception_unfold.
    unfold write_error_in, line_in. simpl.
    destruct (write_error _ _); simpl; rewrite <- !app_assoc;
      by repeat split.
  - simpl. rewrite <- !app_assoc. by repeat split.
Qed.

(** The first request of a turn whose user line is written. *)
Lemma requests_of_a_turn_shape (user_input : pystr) (s : session) :
  match write_error_in s (str "user") user_input with
  | Some _ => requests (turn user_input s) = requests s
  | None =>
      exists more,
        requests (turn user_input s)
        = requests s
          ++ first_request (messages s ++ [user_entry user_input]) :: more
  end.
Proof.
  destruct (turn_summary (fun _ => True) user_input s)
    as (replies & err & sent & (_ & _ & _ & _ & _ & _ & Hr) & Hsent);
    [done..|].
  destruct (write_error_in s (str "user") user_input).
  - destruct Hsent as (_ & _ & ->). by rewrite Hr, app_nil_r.
  - destruct Hsent as (more & -> & _). by exists more.
Qed.

(** X9: a turn whose user line is written sends the first request, made
    of the whole transcript with the user's new message and the tool
    catalog, and then at most one follow-up request per tool call of the
    first response, each to "gpt-5" and without the catalog; it never
    sends more.  A turn whose user line cannot be written sends
    nothing. *)
Theorem requests_of_a_turn (user_input : pystr) (s : session) :
  match write_error_in s (str "user") user_input with
  | Some _ => requests (turn user_input s) = requests s
  | None =>
      exists more,
        requests (turn user_input s)
        = requests s
          ++ {| req_model := str "gpt-5";
                req_messages := messages s ++ [user_entry user_input];
                req_tools := Some tools |}
          :: more
        /\ length more
           <= length (requested_calls
                        (service (length (requests s))
                           (first_request
                              (messages s ++ [user_entry user_input]))))
        /\ Forall (fun r => req_model r = str "gpt-5" /\ req_tools r = None)
                  more
  end.
Proof.
  destruct (turn_summary (fun _ => True) user_input s)
    as (replies & err & sent & (_ & _ & _ & _ & _ & _ & Hr) & Hsent);
    [done..|].
  destruct (write_error_in s (str "user") user_input).
  - destruct Hsent as (_ & _ & ->). by rewrite Hr, app_nil_r.
  - destruct Hsent as (more & -> & Hlen & Hshape).
    exists more. repeat split; try done.
    eapply Forall_impl; [exact Hshape|].
    by intros r (transcript & message & tc & result & _ & ->).
Qed.

(** ** More on the session *)

(** What one run of the script does to the session, field by field. *)
Lemma script_run_summary (P : list message -> Prop)
    (user_input : option pystr) (s : session) :
  (forall transcript reply,
     P transcript -> P (transcript ++ [assistant_entry reply])) ->
  (forall text, P (messages s ++ [user_entry text])) ->
  exists (added : list message) (entries : list (pystr * pystr))
         (errs : list exn) (sent : list request),
    Forall user_or_assistant added
    /\ length entries = length added + length errs
    /\ grows s (script_run user_input s) added entries errs sent
    /\ Forall (fun r =>
                 (exists text,
                    r = first_request (messages s ++ [user_entry text]))
                 \/ exists transcript message tc result,
                      P transcript
                      /\ r = follow_up_request transcript message tc result)
              sent.
Proof.
  intros Hkeep HP.
  destruct user_input as [[|c u]|]; simpl;
    try (exists [], [], [], []; repeat split; try done; apply grows_refl).
  destruct (turn_summary P (c :: u) s Hkeep (HP (c :: u)))
    as (replies & err & sent & Hgrows & Hsent).
  exists (user_entry (c :: u) :: map assistant_entry replies),
    (turn_entries (c :: u) replies err),
    (match err with Some e => [e] | None => [] end), sent.
  split; [|split; [|split; [done|]]].
  - constructor; [exists (c :: u); by left|].
    apply Forall_map, Forall_true. intros reply. exists reply. by right.
  - unfold turn_entries. simpl. rewrite length_app, !length_map.
    destruct err; simpl; lia.
  - destruct (write_error_in s (str "user") (c :: u)).
    + by destruct Hsent as (_ & _ & ->).
    + destruct Hsent as (more & -> & _ & Hshape). constructor.
      * left. by exists (c :: u).
      * eapply Forall_impl; [exact Hshape|]. intros r Hr. by right.
Qed.

(** X10: the session only grows: after more runs of the script, each of
    the two transcripts, the log, the error boxes and the requests sent
    begins with what it was before; nothing is removed or changed. *)
Theorem session_is_append_only (inputs more : list (option pystr)) :
  messages (session_after inputs)
    `prefix_of` messages (session_after (inputs ++ more))
  /\ display_messages (session_after inputs)
       `prefix_of` display_messages (session_after (inputs ++ more))
  /\ log_file (session_after inputs)
       `prefix_of` log_file (session_after (inputs ++ more))
  /\ ui_errors (session_after inputs)
       `prefix_of` ui_errors (session_after (inputs ++ more))
  /\ requests (session_after inputs)
       `prefix_of` requests (session_after (inputs ++ more)).
Proof.
  induction more as [|user_input more IH] using rev_ind.
  - by rewrite app_nil_r.
  - rewrite app_assoc, session_after_snoc.
    destruct (script_run_summary (fun _ => True) user_input
                (session_after (inputs ++ more)))
      as (added & entries & errs & sent & _ & _
          & (-> & -> & _ & -> & -> & _ & ->) & _); [done..|].
    destruct IH as (Hm & Hd & Hl & Hu & Hr).
    repeat split; by apply prefix_app_r.
Qed.


Lemma messages_seed_display (inputs : list (option pystr)) :
  messages (session_after inputs)
  = initial_messages ++ display_messages (session_after inputs)
  /\ Forall user_or_assistant (display_messages (session_after inputs)).
Proof.
  induction inputs as [|user_input inputs [IHm IHd]] using rev_ind; [done|].
  rewrite session_after_snoc.
  destruct (script_run_adds user_input (session_after inputs))
    as (added & Hadded & -> & ->).
  split; [by rewrite IHm, <- app_assoc | by apply Forall_app].
Qed.

(** X12: the context is kept over the turns: the first request of a turn
    whose user line is written is made of the three seeded entries, then
    every entry shown so far in the session, the user's messages of failed
    turns among them, then the new message. *)
Theorem first_request_has_the_history (inputs : list (option pystr))
    (c : N) (text : pystr)
    (Hwritten :
       write_error_in (session_after inputs) (str "user") (c :: text)
       = None) :
  requests (session_after (inputs ++ [Some (c :: text)]))
    !! length (requests (session_after inputs))
  = Some {| req_model := str "gpt-5";
            req_messages :=
              initial_messages
              ++ display_messages (session_after inputs)
              ++ [user_entry (c :: text)];
            req_tools := Some tools |}.
Proof.
  rewrite session_after_snoc. simpl.
  pose proof (requests_of_a_turn_shape (c :: text) (session_after inputs))
    as Hsent.
  rewrite Hwritten in Hsent. destruct Hsent as (more & ->).
  rewrite list_lookup_middle by done.
  destruct (messages_seed_display inputs) as [-> _].
  by rewrite <- app_assoc.
Qed.

Lemma render_dicts (display : list message) :
  Forall user_or_assistant display ->
  exists bubbles,
    render display = Some bubbles
    /\ Forall2 (fun msg b =>
                  msg = Dict b.1 b.2
                  /\ (b.1 = str "user" \/ b.1 = str "assistant"))
               display bubbles.
Proof.
  unfold render. induction 1 as [|msg display [text Hmsg] _ IH].
  - by exists [].
  - destruct IH as (bubbles & Hrender & Hall).
    destruct Hmsg as [-> | ->].
    + exists ((str "user", text) :: bubbles). simpl. rewrite Hrender.
      split; [done|]. constructor; [|done]. split; [done | by left].
    + exists ((str "assistant", text) :: bubbles). simpl. rewrite Hrender.
      split; [done|]. constructor; [|done]. split; [done | by right].
Qed.

(** X13: rendering never fails in a session: after any runs of the script
    every entry of the display transcript is a dict, so the loop of lines
    194-196 shows one bubble per entry, in order, with the entry's role,
    "user" or "assistant", and its content. *)
Theorem render_shows_the_display (inputs : list (option pystr)) :
  exists bubbles,
    render (display_messages (session_after inputs)) = Some bubbles
    /\ Forall2 (fun msg b =>
                  msg = Dict b.1 b.2
                  /\ (b.1 = str "user" \/ b.1 = str "assistant"))
               (display_messages (session_after inputs)) bubbles.
Proof. apply render_dicts, messages_seed_display. Qed.

Lemma user_or_assistant_is_dict (m : message) :
  user_or_assistant m -> is_dict m.
Proof. intros [text [-> | ->]]; by eexists _, _. Qed.

(** X14: every request of a session is well formed: it goes to "gpt-5";
    it carries the tool catalog and nothing but plain dicts, or it carries
    no catalog and ends, after plain dicts, with the message of a response
    and exactly one tool entry.  No tool entry and no message object is
    ever stored in the transcript. *)
Theorem requests_are_well_formed (inputs : list (option pystr)) :
  Forall well_formed (requests (session_after inputs))
  /\ Forall is_dict (messages (session_after inputs)).
Proof.
  assert (forall inputs, Forall is_dict (messages (session_after inputs)))
    as Hdicts.
  { intros l. destruct (messages_seed_display l) as [-> Hd].
    apply Forall_app. split.
    - repeat constructor; by eexists _, _.
    - eapply Forall_impl; [exact Hd | apply user_or_assistant_is_dict]. }
  split; [|apply Hdicts].
  induction inputs as [|user_input inputs IH] using rev_ind; [done|].
  rewrite session_after_snoc.
  destruct (script_run_summary (Forall is_dict) user_input
              (session_after inputs))
    as (added & entries & errs & sent & _ & _
        & (_ & _ & _ & _ & _ & _ & ->) & Hshape).
  - intros transcript reply Ht. apply Forall_app. split; [done|].
    repeat constructor. by eexists _, _.
  - intros text. apply Forall_app. split; [apply Hdicts|].
    repeat constructor. by eexists _, _.
  - apply Forall_app. split; [done|].
    eapply Forall_impl; [exact Hshape|].
    intros r [[text ->] | (transcript & message & tc & result & Ht & ->)].
    + split; [done|]. left. split; [done|]. simpl.
      apply Forall_app. split; [apply Hdicts|].
      repeat constructor. by eexists _, _.
    + split; [done|]. right. split; [done|].
      by exists transcript, message, (tc_id tc), result.
Qed.

(** ** More on the log *)






(** ** More on the order table *)

Section AsciiOrders.

(** As above: on ASCII text [str.lower] lowers the letters A-Z and nothing
    else. *)
Hypothesis lower_ascii : forall s, is_ascii s -> lower s = ascii_lower s.

Ltac ascii_text := vm_compute; repeat constructor.
Ltac decide_closed :=
  repeat match goal with
  | |- context [bool_decide ?P] =>
      let b := eval vm_compute in (bool_decide P) in
      change (bool_decide P) with b
  end.

(** X16: an id is found in whatever case it is written: when its [lower]
    is the [lower] of the order id of a record of the table, the result is
    the sentence of that record, with the id as it was written. *)
Theorem order_found_in_any_case (order : order_record) (i : pystr)
    (Hrecord : order ∈ order_data)
    (Hcase : lower i = lower (order_id order)) :
  get_order_status i
  = str "Order " ++ i ++ str " is " ++ status order
    ++ str " and will arrive by " ++ eta order ++ str ".".
Proof.
  unfold order_data in Hrecord.
  rewrite !elem_of_cons, elem_of_nil in Hrecord.
  unfold get_order_status, order_data, get_order_status_in, order_matches.
  cbn [order_id]. rewrite !(lower_ascii (str _)) by ascii_text.
  destruct Hrecord as [-> | [-> | [-> | []]]]; cbn [order_id] in Hcase;
    rewrite Hcase, lower_ascii by ascii_text; by decide_closed.
Qed.

(** X17: a [get_order_status] call whose decoded arguments lack the key
    "order_id" looks up the empty id, which no record has: the result is
    the not-found sentence around an empty id. *)
Theorem order_id_defaults_to_not_found (tc : tool_call)
    (d : gmap pystr pyval)
    (Hname : function_name tc = str "get_order_status")
    (Hargs : function_arguments tc = Return (PyDict d))
    (Hmissing : d !! str "order_id" = None) :
  execute_tool tc = Return (str "Order ID  not found.").
Proof.
  unfold execute_tool. rewrite Hargs, Hname.
  rewrite decide_False, decide_True by done. simpl. rewrite Hmissing. simpl.
  unfold get_order_status, order_data, get_order_status_in, order_matches.
  cbn [order_id]. rewrite !lower_ascii by ascii_text. by decide_closed.
Qed.

End AsciiOrders.

End Chatbot.

(** ** The script on concrete inputs *)

(** C5, as stated, fails in the initial session: without its system and
    tool entries the transcript still has the seeded user/assistant pair,
    which the display transcript does not have. *)
Lemma seeded_pair_is_not_displayed :
  without_bookkeeping
    (messages
       (session_after ascii_lower (scripted []) sample_clock strict_utf8 []))
  = [ Dict (str "user") (str "How can I reset my password?");
      Dict (str "assistant")
           (str "You can reset it under Account Settings "
            ++ [rightwards_arrow] ++ str " Security.") ]
  /\ display_messages
       (session_after ascii_lower (scripted []) sample_clock strict_utf8 [])
     = []
  /\ without_bookkeeping
       (messages
          (session_after ascii_lower (scripted []) sample_clock strict_utf8
             []))
     <> display_messages
          (session_after ascii_lower (scripted []) sample_clock strict_utf8
             []).
Proof. by vm_compute. Qed.

(** C2 on a [lower] that is [str.lower] on ASCII text. *)
Lemma get_order_status_spec_witness :
  (forall s, is_ascii s -> ascii_lower s = ascii_lower s)
  /\ get_order_status ascii_lower (str "ORD124")
     = str "Order ORD124 is Delivered and will arrive by 2025-10-22."
  /\ get_order_status ascii_lower (str "zzz") = str "Order ID zzz not found.".
Proof.
  split; [reflexivity|].
  apply (get_order_status_spec ascii_lower). reflexivity.
Defined.

(** C9 on the same [lower], with a call whose arguments are [{}]. *)
Lemma lookup_faq_empty_query_witness :
  (forall s, is_ascii s -> ascii_lower s = ascii_lower s)
  /\ function_name (bare_faq_call (str "call_1")) = str "lookup_faq"
  /\ function_arguments (bare_faq_call (str "call_1")) = Return (PyDict ∅)
  /\ (∅ : gmap pystr pyval) !! str "query" = None
  /\ execute_tool ascii_lower (bare_faq_call (str "call_1"))
     = Return (str "Go to Account Settings " ++ [rightwards_arrow]
               ++ str " Security " ++ [rightwards_arrow]
               ++ str " Reset Password.").
Proof.
  split; [reflexivity|]. do 3 (split; [reflexivity|]).
  apply (proj2 (proj2 (lookup_faq_empty_query ascii_lower
                         (fun s _ => eq_refl)))
           (bare_faq_call (str "call_1")) ∅); reflexivity.
Defined.

(** C7, as stated, fails on a call to an unknown tool whose argument text
    does not decode: no result string is produced, the turn ends in the
    handler with an error box and without a reply. *)
Lemma unknown_tool_with_malformed_arguments :
  let tc := malformed_call (str "call_1") in
  let s' := turn ascii_lower (scripted script_malformed) sample_clock
                 strict_utf8 (str "Restart my router") initial_session in
  function_name tc <> str "lookup_faq"
  /\ function_name tc <> str "get_order_status"
  /\ execute_tool ascii_lower tc <> Return (str "Tool not implemented.")
  /\ execute_tool ascii_lower tc
     = Raise (JSONDecodeError
                (str "Expecting value: line 1 column 1 (char 0)"))
  /\ display_messages s' = [user_entry (str "Restart my router")]
  /\ ui_errors s'
     = [[cross_mark]
        ++ str " API Error: Expecting value: line 1 column 1 (char 0)"].
Proof. by vm_compute. Qed.

(** C7, as amended, on the call whose arguments are [{}]. *)
Lemma tool_resolution_witness :
  function_arguments (bare_faq_call (str "call_1")) = Return (PyDict ∅)
  /\ execute_tool ascii_lower (bare_faq_call (str "call_1"))
     = Return (lookup_faq ascii_lower []).
Proof.
  split; [reflexivity|].
  destruct (tool_resolution ascii_lower (scripted []) sample_clock
              strict_utf8 (bare_faq_call (str "call_1")) (PyDict ∅) eq_refl)
    as (_ & _ & Hfaq & _).
  destruct (Hfaq ∅ eq_refl eq_refl) as [Hnone _].
  apply Hnone. reflexivity.
Defined.

(** C8, as stated, fails on the second call of a turn whose first response
    carries two tool calls: its follow-up request is not the transcript of
    the first request with the message and the tool entry, it also holds
    the reply adopted for the first call. *)
Lemma later_call_sees_earlier_reply :
  let question := str "Refund policy, and where is ORD123?" in
  let s' := turn ascii_lower (scripted script_both_answered) sample_clock
                 strict_utf8 question initial_session in
  let original := initial_messages ++ [user_entry question] in
  exists first second third,
    requests s' = [first; second; third]
    /\ req_messages first = original
    /\ req_messages second
       = original
         ++ [ModelMessage two_calls;
             ToolDict (str "call_1")
               (str "Refunds are available within 30 days of purchase.")]
    /\ req_messages third
       = original
         ++ [assistant_entry (str "You have 30 days.");
             ModelMessage two_calls;
             ToolDict (str "call_2")
               (str "Order ORD123 is Shipped and will arrive by 2025-10-28.")]
    /\ req_messages third
       <> original
          ++ [ModelMessage two_calls;
              ToolDict (str "call_2")
                (str "Order ORD123 is Shipped and will arrive by 2025-10-28.")].
Proof.
  cbv zeta. eexists _, _, _. split; [by vm_compute|]. by vm_compute.
Qed.

(** C8, as amended, on the first call of a turn. *)
Lemma follow_up_completion_witness :
  execute_tool ascii_lower call_faq
  = Return (str "Refunds are available within 30 days of purchase.")
  /\ requests
       (snd (handle_tool_call ascii_lower (scripted script_both_answered)
               sample_clock strict_utf8 two_calls call_faq initial_session))
     = [ {| req_model := str "gpt-5";
            req_messages :=
              initial_messages
              ++ [ModelMessage two_calls;
                  ToolDict (str "call_1")
                    (str "Refunds are available within 30 days of purchase.")];
            req_tools := None |} ].
Proof.
  split; [by vm_compute|].
  apply (follow_up_completion ascii_lower (scripted script_both_answered)
           sample_clock strict_utf8 two_calls call_faq initial_session).
  by vm_compute.
Defined.

(** C3, as stated, fails on a turn whose first response carries two tool
    calls and whose second follow-up request fails: one assistant entry is
    added, not two, and it comes right after the user's entry; there is no
    tool entry in the transcript. *)
Lemma second_follow_up_fails :
  let question := str "Refund policy, and where is ORD123?" in
  let s' := turn ascii_lower (scripted script_second_fails) sample_clock
                 strict_utf8 question initial_session in
  scripted script_second_fails 0
    (first_request (initial_messages ++ [user_entry question]))
  = Return {| choices := [two_calls] |}
  /\ tool_calls two_calls = Some [call_faq; call_order]
  /\ messages s'
     = initial_messages
       ++ [user_entry question; assistant_entry (str "You have 30 days.")]
  /\ display_messages s'
     = [user_entry question; assistant_entry (str "You have 30 days.")]
  /\ (forall id result, ToolDict id result ∉ messages s').
Proof.
  cbv zeta. do 4 (split; [by vm_compute|]).
  intros id result. vm_compute messages.
  rewrite !not_elem_of_cons. repeat (split; [done|]). apply not_elem_of_nil.
Qed.

(** C3, as amended, on the turn in which both calls are answered. *)
Lemma tool_turn_appends_witness :
  let question := str "Refund policy, and where is ORD123?" in
  let s' := turn ascii_lower (scripted script_both_answered) sample_clock
                 strict_utf8 question initial_session in
  scripted script_both_answered (length (requests initial_session))
    (first_request (messages initial_session ++ [user_entry question]))
  = Return {| choices := [two_calls] |}
  /\ tool_calls two_calls = Some [call_faq; call_order]
  /\ 1 <= length [call_faq; call_order]
  /\ ui_errors s' = ui_errors initial_session
  /\ fst (chat_turn ascii_lower (scripted script_both_answered) sample_clock
            strict_utf8 question initial_session)
     = Return tt
  /\ exists steps,
       map step_call steps = [call_faq; call_order]
       /\ messages s'
          = messages initial_session
            ++ user_entry question
            :: map assistant_entry (map step_reply steps).
Proof.
  cbv zeta.
  split; [by vm_compute|]. split; [reflexivity|]. split; [simpl; lia|].
  split; [by vm_compute|]. split; [by vm_compute|].
  destruct (tool_turn_appends ascii_lower (scripted script_both_answered)
              sample_clock strict_utf8
              (str "Refund policy, and where is ORD123?")
              initial_session two_calls [] [call_faq; call_order])
    as (steps & Hcalls & _ & _ & Hm & _);
    [by vm_compute | reflexivity | simpl; lia | by vm_compute
    | by vm_compute |].
  by exists steps.
Defined.

(** C4, as stated, fails on a turn whose completion call raises while the
    log file cannot be written any more: the error box is shown, but the
    log gets no line with role "error", and the exception of the write
    leaves the script. *)
Lemma error_line_is_not_written :
  let question := str "Where is my order?" in
  let s' := turn ascii_lower (scripted script_down) sample_clock
                 (logs_removed 1) question initial_session in
  scripted script_down 0
    (first_request (initial_messages ++ [user_entry question]))
  = Raise (RemoteError (str "Connection error."))
  /\ display_messages s' = [user_entry question]
  /\ ui_errors s' = [[cross_mark] ++ str " API Error: Connection error."]
  /\ log_file initial_session = []
  /\ log_file s'
     = [str "[2025-10-21 12:00:00] User: Where is my order?" ++ [LF]]
  /\ fst (chat_turn ascii_lower (scripted script_down) sample_clock
            (logs_removed 1) question initial_session)
     = Raise (OSError
                (str "[Errno 2] No such file or directory: "
                 ++ str "'logs/conversation_20251021_120000.txt'")).
Proof. by vm_compute. Qed.

(** C4, as amended, on the turn whose second follow-up request fails. *)
Lemma completion_call_raises_witness :
  let question := str "Refund policy, and where is ORD123?" in
  let service := scripted script_second_fails in
  let s0 := initial_session in
  let s := snd (handle_tool_call ascii_lower service sample_clock
                  strict_utf8 two_calls call_faq
                  (record_request
                     (first_request
                        (messages (user_state sample_clock question s0)))
                     (user_state sample_clock question s0))) in
  let r := follow_up_request (messages s) two_calls call_order
             (str "Order ORD123 is Shipped and will arrive by 2025-10-28.") in
  about_to_call ascii_lower service sample_clock strict_utf8 question s0 s r
  /\ service (length (requests s)) r
     = Raise (RemoteError (str "Connection error."))
  /\ display_messages
       (turn ascii_lower service sample_clock strict_utf8 question s0)
     = display_messages s
  /\ display_messages s
     = [user_entry question; assistant_entry (str "You have 30 days.")].
Proof.
  intros question service s0 s r.
  assert (about_to_call ascii_lower service sample_clock strict_utf8
            question s0 s r) as Hcall.
  { apply (follow_up_call ascii_lower service sample_clock strict_utf8
             question s0 two_calls [] [call_faq] call_order []);
      by vm_compute. }
  assert (service (length (requests s)) r
          = Raise (RemoteError (str "Connection error."))) as Hraise.
  { by vm_compute. }
  split; [exact Hcall|]. split; [exact Hraise|]. split; [|by vm_compute].
  exact (proj1 (completion_call_raises ascii_lower service sample_clock
                  strict_utf8 question s0 s r
                  (RemoteError (str "Connection error.")) Hcall Hraise)).
Defined.

(** C6, as stated, fails on a turn answered with a reply of two lines: one
    reply, no error, and the log grows by three lines, not two.  It also
    fails on a turn answered with a lone surrogate, which the utf-8 codec
    of the log file refuses: one reply and one error, and the log grows by
    two lines, not three. *)
Lemma log_lines_differ_from_the_count :
  let s1 := turn ascii_lower (scripted script_two_lines) sample_clock
                 strict_utf8 (str "How do I start?") initial_session in
  let s2 := turn ascii_lower (scripted script_surrogate) sample_clock
                 strict_utf8 (str "hi") initial_session in
  count_lines (log_text initial_session) = 0
  /\ (display_messages s1
      = [user_entry (str "How do I start?");
         assistant_entry (str "Step 1" ++ [LF] ++ str "Step 2")]
      /\ ui_errors s1 = []
      /\ count_lines (log_text s1) = 3
      /\ count_lines (log_text s1)
         <> count_lines (log_text initial_session) + 1 + 1 + 0)
  /\ (display_messages s2
      = [user_entry (str "hi"); assistant_entry [55357%N]]
      /\ ui_errors s2
         = [[cross_mark]
            ++ str " API Error: 'utf-8' codec can't encode character '\ud83d'"
            ++ str " in position 33: surrogates not allowed"]
      /\ log_file s2
         = [str "[2025-10-21 12:00:00] User: hi" ++ [LF];
            str "[2025-10-21 12:00:02] Error: 'utf-8' codec can't encode"
            ++ str " character '\ud83d' in position 33: surrogates not allowed"
            ++ [LF]]
      /\ count_lines (log_text s2) = 2
      /\ count_lines (log_text s2)
         <> count_lines (log_text initial_session) + 1 + 1 + 1).
Proof. by vm_compute. Qed.

(** C6, as amended, on a turn answered with a reply of one line. *)
Lemma log_records_per_turn_witness :
  exists (replies : list pystr) (err : option exn),
    display_messages
      (turn ascii_lower (scripted [text_reply (str "Hello!")]) sample_clock
            strict_utf8 (str "hi") initial_session)
    = user_entry (str "hi") :: map assistant_entry replies
    /\ writes_succeed sample_clock strict_utf8 0
         ((str "user", str "hi")
          :: map (fun reply => (str "assistant", reply)) replies
          ++ match err with
             | Some e => [(str "error", exn_text e)]
             | None => []
             end)
    /\ length
         (log_file
            (turn ascii_lower (scripted [text_reply (str "Hello!")])
                  sample_clock strict_utf8 (str "hi") initial_session))
       = 0 + 1 + length replies + match err with Some _ => 1 | None => 0 end.
Proof.
  destruct (log_records_per_turn ascii_lower
              (scripted [text_reply (str "Hello!")]) sample_clock
              strict_utf8 (str "hi") initial_session)
    as [(replies & err & Hd & Hu & _ & _ & Hok & _) _].
  exists replies, err. split; [exact Hd|].
  assert (writes_succeed sample_clock strict_utf8 0
            ((str "user", str "hi")
             :: map (fun reply => (str "assistant", reply)) replies
             ++ match err with
                | Some e => [(str "error", exn_text e)]
                | None => []
                end)) as Hwrites.
  { vm_compute in Hd, Hu.
    destruct err as [e|]; [discriminate Hu|].
    destruct replies as [|reply [|reply' replies]]; try discriminate Hd.
    injection Hd as <-. by vm_compute. }
  split; [exact Hwrites|].
  exact (proj1 (proj2 (Hok Hwrites))).
Defined.

(** ** The extras on concrete inputs *)

(** X2 on "refund" and "Refund policy". *)
Lemma shorter_query_is_found_witness :
  contains_ci ascii_lower (str "refund") (str "Refund policy")
  /\ lookup_faq ascii_lower (str "Refund policy") <> faq_not_found
  /\ lookup_faq ascii_lower (str "refund") <> faq_not_found.
Proof.
  assert (contains_ci ascii_lower (str "refund") (str "Refund policy"))
    as Hshort.
  { by exists [], (str " policy"). }
  assert (lookup_faq ascii_lower (str "Refund policy") <> faq_not_found)
    as Hfound.
  { by vm_compute. }
  split; [exact Hshort|]. split; [exact Hfound|].
  exact (shorter_query_is_found ascii_lower _ _ Hshort Hfound).
Defined.

(** X3 on "REFUND" and "refund". *)
Lemma lookup_faq_ignores_case_witness :
  ascii_lower (str "REFUND") = ascii_lower (str "refund")
  /\ lookup_faq ascii_lower (str "REFUND")
     = lookup_faq ascii_lower (str "refund").
Proof.
  split; [reflexivity|].
  exact (lookup_faq_ignores_case ascii_lower (str "REFUND") (str "refund")
           eq_refl).
Defined.

(** X4 on "ord124" and "ORD124". *)
Lemma get_order_status_ignores_case_witness :
  ascii_lower (str "ord124") = ascii_lower (str "ORD124")
  /\ ((get_order_status ascii_lower (str "ord124")
       = str "Order ID " ++ str "ord124" ++ str " not found."
       /\ get_order_status ascii_lower (str "ORD124")
          = str "Order ID " ++ str "ORD124" ++ str " not found.")
      \/ exists order,
           first_with (same_id ascii_lower (str "ord124")) order_data order
           /\ get_order_status ascii_lower (str "ord124")
              = str "Order " ++ str "ord124" ++ str " is " ++ status order
                ++ str " and will arrive by " ++ eta order ++ str "."
           /\ get_order_status ascii_lower (str "ORD124")
              = str "Order " ++ str "ORD124" ++ str " is " ++ status order
                ++ str " and will arrive by " ++ eta order ++ str ".").
Proof.
  split; [reflexivity|].
  exact (get_order_status_ignores_case ascii_lower (str "ord124")
           (str "ORD124") eq_refl).
Defined.

(** X5 on a [lookup_faq] call whose arguments are a list. *)
Lemma argument_type_errors_witness :
  function_arguments (list_call (str "call_1")) = Return (PyList [])
  /\ function_name (list_call (str "call_1")) = str "lookup_faq"
  /\ execute_tool ascii_lower (list_call (str "call_1"))
     = Raise (AttributeError (str "list") (str "get")).
Proof.
  split; [reflexivity|]. split; [reflexivity|].
  exact (proj1 (argument_type_errors ascii_lower (scripted []) sample_clock
                  strict_utf8
                  (list_call (str "call_1")) (PyList []) eq_refl
                  (or_introl eq_refl))
               (fun d H => eq_ind (PyList []) (fun v => match v with
                                                      | PyList _ => True
                                                      | _ => False
                                                      end) I _ H)).
Defined.

(** X6 on the call to [lookup_faq] with [{"query": "refund"}]. *)
Lemma schema_calls_succeed_witness :
  {| tool_name := str "lookup_faq";
     tool_description := str "Retrieve an FAQ answer.";
     tool_properties := [(str "query", str "string")];
     tool_required := [str "query"] |} ∈ tools
  /\ exists d key text,
       function_arguments call_faq = Return (PyDict d)
       /\ d !! key = Some (PyStr text)
       /\ execute_tool ascii_lower call_faq
          = Return (lookup_faq ascii_lower text).
Proof.
  assert ({| tool_name := str "lookup_faq";
             tool_description := str "Retrieve an FAQ answer.";
             tool_properties := [(str "query", str "string")];
             tool_required := [str "query"] |} ∈ tools) as Hcatalog.
  { apply list_elem_of_here. }
  split; [exact Hcatalog|].
  destruct (schema_calls_succeed ascii_lower call_faq _ Hcatalog)
    as (d & key & text & _ & Hargs & Hkey & Htool).
  { split; [reflexivity|]. eexists. split; [reflexivity|].
    constructor; [|constructor]. by exists (str "refund"). }
  by exists d, key, text.
Defined.

(** X7 on a turn answered with a lone surrogate: the write of the reply
    raises in the [try] body, and the handler shows the box. *)
Lemma exceptions_of_a_turn_witness :
  let e := UnicodeEncodeError
             (str "'utf-8' codec can't encode character '\ud83d'"
              ++ str " in position 33: surrogates not allowed") in
  write_error_in sample_clock strict_utf8 initial_session (str "user")
                 (str "hi")
  = None
  /\ fst (try_body ascii_lower (scripted script_surrogate) sample_clock
             strict_utf8 (user_state sample_clock (str "hi") initial_session))
     = Raise e
  /\ ui_errors
       (turn ascii_lower (scripted script_surrogate) sample_clock
             strict_utf8 (str "hi") initial_session)
     = ui_errors initial_session
       ++ [[cross_mark] ++ str " API Error: " ++ exn_text e].
Proof.
  intros e.
  assert (write_error_in sample_clock strict_utf8 initial_session
            (str "user") (str "hi") = None) as Hwritten.
  { by vm_compute. }
  assert (fst (try_body ascii_lower (scripted script_surrogate) sample_clock
                 strict_utf8
                 (user_state sample_clock (str "hi") initial_session))
          = Raise e) as Hraised.
  { by vm_compute. }
  split; [exact Hwritten|]. split; [exact Hraised|].
  exact (proj1 (proj1 (exceptions_of_a_turn ascii_lower
                         (scripted script_surrogate) sample_clock
                         strict_utf8 (str "hi") initial_session)
                  e Hwritten Hraised)).
Defined.

(** X8 on a turn answered with "Hello!". *)
Lemma plain_turn_witness :
  write_error_in sample_clock strict_utf8 initial_session (str "user")
                 (str "hi")
  = None
  /\ scripted [text_reply (str "Hello!")]
       (length (requests initial_session))
       (first_request (messages initial_session ++ [user_entry (str "hi")]))
     = Return {| choices :=
                   [ {| content := Some (str "Hello!");
                        tool_calls := None |} ] |}
  /\ exists reply,
       display_messages
         (turn ascii_lower (scripted [text_reply (str "Hello!")])
               sample_clock strict_utf8 (str "hi") initial_session)
       = display_messages initial_session
         ++ [user_entry (str "hi"); assistant_entry reply].
Proof.
  assert (write_error_in sample_clock strict_utf8 initial_session
            (str "user") (str "hi") = None) as Hwritten.
  { by vm_compute. }
  split; [exact Hwritten|]. split; [reflexivity|].
  destruct (plain_turn ascii_lower (scripted [text_reply (str "Hello!")])
              sample_clock strict_utf8 (str "hi") initial_session
              {| content := Some (str "Hello!"); tool_calls := None |} []
              Hwritten eq_refl (or_introl eq_refl))
    as (reply & _ & _ & _ & Hd & _).
  by exists reply.
Defined.


(** X12 on the first turn of a session. *)
Lemma first_request_has_the_history_witness :
  write_error_in sample_clock strict_utf8
    (session_after ascii_lower (scripted [text_reply (str "Hello!")])
       sample_clock strict_utf8 [])
    (str "user") (str "hi")
  = None
  /\ requests
       (session_after ascii_lower (scripted [text_reply (str "Hello!")])
          sample_clock strict_utf8 [Some (str "hi")])
     !! 0
     = Some {| req_model := str "gpt-5";
               req_messages := initial_messages ++ [user_entry (str "hi")];
               req_tools := Some tools |}.
Proof.
  assert (write_error_in sample_clock strict_utf8
            (session_after ascii_lower (scripted [text_reply (str "Hello!")])
               sample_clock strict_utf8 [])
            (str "user") (str "hi") = None) as Hwritten.
  { by vm_compute. }
  split; [exact Hwritten|].
  exact (first_request_has_the_history ascii_lower
           (scripted [text_reply (str "Hello!")]) sample_clock strict_utf8
           [] 104%N [105%N] Hwritten).
Defined.


(** X16 on "ord124". *)
Lemma order_found_in_any_case_witness :
  (forall s, is_ascii s -> ascii_lower s = ascii_lower s)
  /\ {| order_id := str "ORD124"; status := str "Delivered";
        eta := str "2025-10-22" |} ∈ order_data
  /\ ascii_lower (str "ord124") = ascii_lower (str "ORD124")
  /\ get_order_status ascii_lower (str "ord124")
     = str "Order ord124 is Delivered and will arrive by 2025-10-22.".
Proof.
  assert ({| order_id := str "ORD124"; status := str "Delivered";
             eta := str "2025-10-22" |} ∈ order_data) as Hrecord.
  { apply list_elem_of_further, list_elem_of_here. }
  split; [reflexivity|]. split; [exact Hrecord|]. split; [reflexivity|].
  exact (order_found_in_any_case ascii_lower (fun s _ => eq_refl) _
           (str "ord124") Hrecord eq_refl).
Defined.

(** X17 on a [get_order_status] call whose arguments are [{}]. *)
Lemma order_id_defaults_to_not_found_witness :
  (forall s, is_ascii s -> ascii_lower s = ascii_lower s)
  /\ (∅ : gmap pystr pyval) !! str "order_id" = None
  /\ execute_tool ascii_lower
       {| tc_id := str "call_1"; function_name := str "get_order_status";
          function_arguments := Return (PyDict ∅) |}
     = Return (str "Order ID  not found.").
Proof.
  split; [reflexivity|]. split; [reflexivity|].
  exact (order_id_defaults_to_not_found ascii_lower (fun s _ => eq_refl)
           {| tc_id := str "call_1"; function_name := str "get_order_status";
              function_arguments := Return (PyDict ∅) |}
           ∅ eq_refl eq_refl eq_refl).
Defined.
